(** * Personal AI Home Agent: connection lifecycle and command execution

    A shallow embedding of [personalai-agent/agent.py].  The agent keeps a
    websocket to a remote server, decodes the commands it receives, runs them
    against the local Home Assistant REST API and answers with a correlated
    reply.

    Python values decoded from JSON are the inductive [pyval]; a Python
    [dict] with string keys is a [gmap string pyval].  Effects (HTTP calls,
    websocket sends, task creation, sleeps) are recorded in a chronological
    trace kept in the agent state; the outside world (the local API, the
    transport) is an oracle that answers from the trace so far.  Exceptions
    are the [Raise] outcome of a small state-and-error monad.  Only
    subclasses of [Exception] are modelled: task cancellation is not. *)

From stdpp Require Import gmap strings list fin_maps pretty.
From Stdlib Require Import ZArith SpecFloat Ascii.

#[local] Set Warnings "-register-all".
#[local] Open Scope Z_scope.
#[local] Open Scope string_scope.

(** ** Values *)

(** What [json.loads] and [resp.json()] produce. *)
Inductive pyval : Type :=
  | PNone
  | PBool (b : bool)
  | PInt (z : Z)
  | PFloat (f : spec_float)
  | PStr (s : string)
  | PList (l : list pyval)
  | PDict (d : gmap string pyval).

Abbreviation dict := (gmap string pyval).

(** [type(v).__name__], as it appears in the interpreter's messages. *)
Definition type_name (v : pyval) : string :=
  match v with
  | PNone => "NoneType"
  | PBool _ => "bool"
  | PInt _ => "int"
  | PFloat _ => "float"
  | PStr _ => "str"
  | PList _ => "list"
  | PDict _ => "dict"
  end.

(** ** Exceptions *)

Inductive exn_class : Type :=
  | JSONDecodeError
  | WSServerHandshakeError
  | AttributeError
  | TypeError
  | ValueError
  | ClientError
  | TimeoutError
  | OtherException.

Record exn : Type := Exn { exn_class_of : exn_class; exn_str : string }.

Inductive res (A : Type) : Type :=
  | Ok (a : A)
  | Raise (e : exn).
Arguments Ok {A} a.
Arguments Raise {A} e.

(** ** The interpreter's behaviour outside the typed fragment

    Two builtins are only reached with arguments the annotations of the
    source exclude; what they return there is left to the interpreter:
    [str()] of a float or a container, and [dict.update] applied to
    something that is not a mapping (it either raises or merges the pairs
    it can read). *)
Class PyRuntime : Type := {
  str_compound : pyval -> string;
  update_nonmapping : dict -> pyval -> res dict
}.

(** ** Builtins on decoded values *)

(** [str(v)], which is what an f-string field [{v}] inserts. *)
Definition py_str `{PyRuntime} (v : pyval) : string :=
  match v with
  | PNone => "None"
  | PBool true => "True"
  | PBool false => "False"
  | PInt z => pretty z
  | PStr s => s
  | PFloat _ | PList _ | PDict _ => str_compound v
  end.

(** [bool(v)], the test of [if v:]. *)
Definition py_truthy (v : pyval) : bool :=
  match v with
  | PNone => false
  | PBool b => b
  | PInt z => negb (Z.eqb z 0)
  | PFloat (S754_zero _) => false
  | PFloat _ => true
  | PStr s => negb (String.eqb s "")
  | PList l => match l with [] => false | _ => true end
  | PDict d => negb (bool_decide (d = ∅))
  end.

(** [v == s] for a string literal [s]. *)
Definition py_eq_str (v : pyval) (s : string) : bool :=
  match v with
  | PStr t => String.eqb t s
  | _ => false
  end.

(** [v.get(key, default)]: only a dict has the method. *)
Definition py_get (v : pyval) (key : string) (dflt : pyval) : res pyval :=
  match v with
  | PDict d => Ok (default dflt (d !! key))
  | _ => Raise (Exn AttributeError
                  ("'" ++ type_name v ++ "' object has no attribute 'get'"))
  end.

(** [s.split(".")]: never empty. *)
Fixpoint split_dot (s : string) : list string :=
  match s with
  | EmptyString => [""]
  | String c rest =>
      if Ascii.eqb c "."%char then "" :: split_dot rest
      else match split_dot rest with
           | h :: t => String c h :: t
           | [] => [String c ""]
           end
  end.

(** ["." in s] for a string [s]. *)
Fixpoint has_dot (s : string) : bool :=
  match s with
  | EmptyString => false
  | String c rest => Ascii.eqb c "."%char || has_dot rest
  end.

(** ["." in v]: substring test on a string, element test on a list, key
    test on a dict; the other types are not containers. *)
Definition py_contains_dot (v : pyval) : res bool :=
  match v with
  | PStr s => Ok (has_dot s)
  | PList l => Ok (existsb (fun x => py_eq_str x ".") l)
  | PDict d => Ok (bool_decide (is_Some (d !! ".")))
  | _ => Raise (Exn TypeError
                  ("argument of type '" ++ type_name v ++ "' is not iterable"))
  end.

(** [v.split(".")[0]]: only a string has the method. *)
Definition py_split_dot_first (v : pyval) : res string :=
  match v with
  | PStr s =>
      match split_dot s with
      | h :: _ => Ok h
      | [] => Raise (Exn OtherException "list index out of range")
      end
  | _ => Raise (Exn AttributeError
                  ("'" ++ type_name v ++ "' object has no attribute 'split'"))
  end.

(** The elements a [for] loop draws from [v].  A dict yields its keys and a
    string its characters; the loops of this program fail alike on each of
    them, so the order of the keys is not observed. *)
Definition py_iter (v : pyval) : res (list pyval) :=
  match v with
  | PList l => Ok l
  | PDict d => Ok (PStr <$> (map_to_list d).*1)
  | PStr s => Ok ((fun c => PStr (String c "")) <$> String.list_ascii_of_string s)
  | _ => Raise (Exn TypeError
                  ("'" ++ type_name v ++ "' object is not iterable"))
  end.

(** ** Capability policy *)

Definition SAFE_DOMAINS : gset string :=
  {[ "light"; "switch"; "climate"; "cover"; "lock";
     "fan"; "media_player"; "scene"; "vacuum"; "input_boolean";
     "alarm_control_panel"; "humidifier"; "water_heater"; "script";
     "automation"; "input_select"; "input_number"; "input_text" ]}.

(** [v in SAFE_DOMAINS]: the set hashes [v] first, which a list or a dict
    refuses; a hashable value that is not a string equals no member. *)
Definition py_in_SAFE_DOMAINS (v : pyval) : res bool :=
  match v with
  | PStr s => Ok (bool_decide (s ∈ SAFE_DOMAINS))
  | PList _ | PDict _ =>
      Raise (Exn TypeError ("unhashable type: '" ++ type_name v ++ "'"))
  | _ => Ok false
  end.

(** ** The world: requests, events, oracles *)

Record http_request : Type := HttpRequest {
  req_method : string;
  req_url : string;
  req_headers : list (string * string);
  req_json : option dict;
  req_timeout : option Z
}.

(** What the shared [ClientSession] gives back: the call fails, or a
    response arrives with a status and with what [resp.json()] will yield. *)
Inductive http_reply : Type :=
  | HttpFail (e : exn)
  | HttpResp (status : Z) (json : res pyval).

Inductive event : Type :=
  | EvHttp (req : http_request)
  | EvWsConnect
  | EvWsSend (msg : pyval)
  | EvCreatePingTask
  | EvCancelPingTask
  | EvMessageLoop
  | EvSleep (seconds : Z)
  | EvSessionClose.

(** The mutable fields of [HomeAgent], and the effects so far, oldest
    first. *)
Record state : Type := State {
  _running : bool;
  _connected : bool;
  trace : list event
}.

(** The immutable fields of [HomeAgent] and the two oracles: the local API
    answers a request, and the transport accepts or refuses a send, each
    knowing everything that happened before. *)
Record env : Type := Env {
  ha_url : string;
  ha_token : string;
  reconnect_delay : Z;
  local_api : list event -> http_request -> http_reply;
  ws_send_fault : list event -> option exn
}.

(** ** The agent monad *)

Definition M (A : Type) : Type := env -> state -> res A * state.

Definition ret {A} (a : A) : M A := fun _ s => (Ok a, s).

Definition bind {A B} (m : M A) (k : A -> M B) : M B :=
  fun e s =>
    match m e s with
    | (Ok a, s') => k a e s'
    | (Raise x, s') => (Raise x, s')
    end.

Definition raise {A} (x : exn) : M A := fun _ s => (Raise x, s).

(** A pure builtin that may raise. *)
Definition lift {A} (r : res A) : M A := fun _ s => (r, s).

Definition ask : M env := fun e s => (Ok e, s).
Definition get : M state := fun _ s => (Ok s, s).
Definition emit (ev : event) : M unit :=
  fun _ s => (Ok tt, State (_running s) (_connected s) (trace s ++ [ev])).
Definition set_running (b : bool) : M unit :=
  fun _ s => (Ok tt, State b (_connected s) (trace s)).
Definition set_connected (b : bool) : M unit :=
  fun _ s => (Ok tt, State (_running s) b (trace s)).

(** [try: m  except C as e: h e] for the classes [C] selected by [catches]. *)
Definition try_except {A} (catches : exn -> bool) (m : M A) (h : exn -> M A)
  : M A :=
  fun e s =>
    match m e s with
    | (Raise x, s') => if catches x then h x e s' else (Raise x, s')
    | r => r
    end.

(** [try: m  finally: f]. *)
Definition try_finally {A} (m : M A) (f : M unit) : M A :=
  fun e s =>
    match m e s with
    | (r, s') =>
        match f e s' with
        | (Ok _, s'') => (r, s'')
        | (Raise x, s'') => (Raise x, s'')
        end
    end.

(** Every modelled class derives from [Exception]. *)
Definition is_Exception (x : exn) : bool := true.

Definition is_class (c : exn_class) (x : exn) : bool :=
  match c, exn_class_of x with
  | JSONDecodeError, JSONDecodeError
  | WSServerHandshakeError, WSServerHandshakeError
  | AttributeError, AttributeError
  | TypeError, TypeError
  | ValueError, ValueError
  | ClientError, ClientError
  | TimeoutError, TimeoutError
  | OtherException, OtherException => true
  | _, _ => false
  end.

Declare Scope agent_scope.
Delimit Scope agent_scope with agent.
Notation "x <- m ;; k" := (bind m (fun x => k))
  (at level 100, m at next level, right associativity) : agent_scope.
Notation "m ;;; k" := (bind m (fun _ => k))
  (at level 100, right associativity) : agent_scope.
#[local] Open Scope agent_scope.

(** ** Primitive effects *)

(** One call on the shared HTTP session. *)
Definition http_call (req : http_request) : M (Z * res pyval) :=
  fun e s =>
    match local_api e (trace s) req with
    | HttpFail x =>
        (Raise x, State (_running s) (_connected s) (trace s ++ [EvHttp req]))
    | HttpResp st js =>
        (Ok (st, js),
         State (_running s) (_connected s) (trace s ++ [EvHttp req]))
    end.

(** [self._ws.send_json(msg)]. *)
Definition ws_send_json (msg : pyval) : M unit :=
  fun e s =>
    match ws_send_fault e (trace s) with
    | Some x => (Raise x, s)
    | None =>
        (Ok tt, State (_running s) (_connected s) (trace s ++ [EvWsSend msg]))
    end.

(** [asyncio.sleep(seconds)]. *)
Definition sleep (seconds : Z) : M unit := emit (EvSleep seconds).

(** The result dictionaries. *)
Definition failure (msg : string) : dict :=
  {[ "success" := PBool false; "error" := PStr msg ]}.

Definition bearer (e : env) : list (string * string) :=
  [("Authorization", "Bearer " ++ ha_token e)].

(** Sequencing of pure builtins that may raise. *)
Definition rbind {A B} (r : res A) (k : A -> res B) : res B :=
  match r with
  | Ok a => k a
  | Raise x => Raise x
  end.
Notation "x <~ r ;; k" := (rbind r (fun x => k))
  (at level 100, r at next level, right associativity) : agent_scope.

(** ** Local API client *)

(** The dictionary appended for one entity. *)
Definition entity_entry (entity_id st name : pyval) : pyval :=
  PDict {[ "entity_id" := entity_id; "state" := st; "name" := name ]}.

(** The body of the loop of [_get_all_entities], on the dictionary
    [entities] built so far. *)
Definition group_entity (entities : gmap string (list pyval)) (entity : pyval)
  : res (gmap string (list pyval)) :=
  entity_id <~ py_get entity "entity_id" (PStr "");;
  dotted <~ py_contains_dot entity_id;;
  if negb dotted then Ok entities
  else
    domain <~ py_split_dot_first entity_id;;
    let entities :=
      if bool_decide (is_Some (entities !! domain)) then entities
      else <[domain := []]> entities in
    st <~ py_get entity "state" PNone;;
    attributes <~ py_get entity "attributes" (PDict ∅);;
    name <~ py_get attributes "friendly_name" entity_id;;
    Ok (<[domain := (default [] (entities !! domain)
                       ++ [entity_entry entity_id st name])%list]> entities).

Fixpoint group_entities (states : list pyval)
  (entities : gmap string (list pyval)) : res (gmap string (list pyval)) :=
  match states with
  | [] => Ok entities
  | entity :: rest =>
      entities' <~ group_entity entities entity;;
      group_entities rest entities'
  end.

Section LocalApiClient.
Context `{PyRuntime}.

(** The requests of the three operations. *)
Definition states_request (e : env) : http_request :=
  HttpRequest "GET" (ha_url e ++ "/api/states") (bearer e) None None.

Definition state_request (entity_id : pyval) (e : env) : http_request :=
  HttpRequest "GET" (ha_url e ++ "/api/states/" ++ py_str entity_id)
    (bearer e) None None.

Definition service_request (domain service : pyval) (service_data : dict)
  (e : env) : http_request :=
  HttpRequest "POST"
    (ha_url e ++ "/api/services/" ++ py_str domain ++ "/" ++ py_str service)
    (bearer e ++ [("Content-Type", "application/json")])
    (Some service_data) None.

Definition _get_all_entities : M dict :=
  try_except is_Exception
    (e <- ask;;
     resp <- http_call (states_request e);;
     if Z.eqb resp.1 200 then
       states <- lift resp.2;;
       items <- lift (py_iter states);;
       entities <- lift (group_entities items ∅);;
       ret ({[ "success" := PBool true;
               "entities" := PDict (PList <$> entities) ]} : dict)
     else ret (failure ("HA returned " ++ pretty resp.1)))
    (fun x => ret (failure (exn_str x))).

Definition _get_entity_state (entity_id : pyval) : M dict :=
  try_except is_Exception
    (e <- ask;;
     resp <- http_call (state_request entity_id e);;
     if Z.eqb resp.1 200 then
       body <- lift resp.2;;
       ret ({[ "success" := PBool true; "state" := body ]} : dict)
     else ret (failure ("HA returned " ++ pretty resp.1)))
    (fun x => ret (failure (exn_str x))).

(** [service_data.update(data)]: the keys of [data] win. *)
Definition dict_update (service_data : dict) (data : pyval) : res dict :=
  match data with
  | PDict d => Ok (d ∪ service_data)
  | _ => update_nonmapping service_data data
  end.

Definition _call_service (domain service entity_id data : pyval) : M dict :=
  try_except is_Exception
    (e <- ask;;
     let service_data : dict := ∅ in
     let service_data :=
       if py_truthy entity_id then <["entity_id" := entity_id]> service_data
       else service_data in
     service_data <- lift (dict_update service_data data);;
     resp <- http_call (service_request domain service service_data e);;
     if Z.eqb resp.1 200 then
       ret ({[ "success" := PBool true;
               "message" := PStr ("Called " ++ py_str domain ++ "."
                                    ++ py_str service) ]} : dict)
     else ret (failure ("HA returned " ++ pretty resp.1)))
    (fun x => ret (failure (exn_str x))).

End LocalApiClient.

(** ** Command execution *)

(** The three methods of [self] that a command is dispatched to. *)
Record LocalApiClient : Type := {
  get_all_entities : M dict;
  get_entity_state : pyval -> M dict;
  call_service : pyval -> pyval -> pyval -> pyval -> M dict
}.

Definition agent_client `{PyRuntime} : LocalApiClient :=
  {| get_all_entities := _get_all_entities;
     get_entity_state := _get_entity_state;
     call_service := _call_service |}.

Section CommandExecution.
Context `{PyRuntime}.
Variable self : LocalApiClient.

Definition _execute_ha_command (command : pyval) : M dict :=
  action <- lift (py_get command "action" PNone);;
  try_except is_Exception
    (if py_eq_str action "get_entities" then
       get_all_entities self
     else if py_eq_str action "get_state" then
       entity_id <- lift (py_get command "entity_id" PNone);;
       get_entity_state self entity_id
     else if py_eq_str action "call_service" then
       domain <- lift (py_get command "domain" PNone);;
       service <- lift (py_get command "service" PNone);;
       allowed <- lift (py_in_SAFE_DOMAINS domain);;
       if negb allowed then
         ret (failure ("Domain '" ++ py_str domain ++ "' not allowed"))
       else
         entity_id <- lift (py_get command "entity_id" PNone);;
         data <- lift (py_get command "data" (PDict ∅));;
         call_service self domain service entity_id data
     else
       ret (failure ("Unknown action: " ++ py_str action)))
    (fun x => ret (failure (exn_str x))).

End CommandExecution.

(** ** Connection session *)

(** [aiohttp.WSMsgType]. *)
Inductive WSMsgType : Type :=
  | CONTINUATION | TEXT | BINARY | PING | PONG
  | CLOSE | CLOSING | CLOSED | ERROR.

(** A frame drawn by [async for msg in self._ws].  Of [msg.data] the loop
    only uses [json.loads(msg.data)], so a frame carries that outcome: the
    decoded value, or the exception the decoder raises. *)
Record WSMessage : Type := {
  msg_type : WSMsgType;
  msg_loads : res pyval
}.

(** What one connection attempt meets: whether [ws_connect] fails, what
    [receive_json] gives for the handshake reply, the frames the iteration
    then yields, and whether it ends by exhaustion or by an exception of
    the receive (a timeout, a transport error). *)
Record session : Type := {
  ws_connect_fault : option exn;
  handshake_reply : res pyval;
  inbound : list WSMessage;
  inbound_end : option exn
}.

Definition VERSION : string := "1.0.0".

Definition handshake : pyval :=
  PDict {[ "type" := PStr "handshake";
           "agent_version" := PStr VERSION;
           "ha_url" := PStr "local" ]}.

Definition ha_response (request_id : pyval) (result : dict) : pyval :=
  PDict {[ "type" := PStr "ha_response";
           "request_id" := request_id;
           "result" := PDict result ]}.

Section Session.
Context `{PyRuntime}.

Definition _handle_message (data : pyval) : M unit :=
  msg_type <- lift (py_get data "type" PNone);;
  if py_eq_str msg_type "pong" then ret tt
  else if py_eq_str msg_type "ha_command" then
    request_id <- lift (py_get data "request_id" PNone);;
    command <- lift (py_get data "command" (PDict ∅));;
    (* the argument of the log line: command.get('action', 'unknown') *)
    _ <- lift (py_get command "action" (PStr "unknown"));;
    result <- _execute_ha_command agent_client command;;
    ws_send_json (ha_response request_id result)
  else ret tt.

Definition is_break (t : WSMsgType) : bool :=
  match t with
  | ERROR | CLOSE | CLOSED => true
  | _ => false
  end.

Fixpoint message_loop_from (end_ : option exn) (frames : list WSMessage)
  : M unit :=
  match frames with
  | [] =>
      match end_ with
      | None => ret tt
      | Some x => raise x
      end
  | msg :: rest =>
      match msg_type msg with
      | TEXT =>
          try_except (is_class JSONDecodeError)
            (data <- lift (msg_loads msg);;
             _handle_message data)
            (fun _ => ret tt);;;
          message_loop_from end_ rest
      | t => if is_break t then ret tt else message_loop_from end_ rest
      end
  end.

Definition _message_loop (sess : session) : M unit :=
  emit EvMessageLoop;;;
  message_loop_from (inbound_end sess) (inbound sess).

Definition ws_connect (sess : session) : M unit :=
  emit EvWsConnect;;;
  match ws_connect_fault sess with
  | Some x => raise x
  | None => ret tt
  end.

(** The address of the websocket is computed from the configuration and
    is not part of the model; neither are the log lines, which change
    nothing. *)
Definition _connect (sess : session) : M unit :=
  try_except is_Exception
    (ws_connect sess;;;
     ws_send_json handshake;;;
     msg <- lift (handshake_reply sess);;
     ty <- lift (py_get msg "type" PNone);;
     if py_eq_str ty "welcome" then
       set_connected true;;;
       emit EvCreatePingTask;;;
       try_finally (_message_loop sess)
         (emit EvCancelPingTask;;; set_connected false)
     else ret tt)
    (fun x =>
       if is_class WSServerHandshakeError x then ret tt else ret tt).

End Session.

(** ** Reconnection supervisor *)

(** One turn of the supervisor loop: the session it meets, and whether
    [stop()] is called by another task while the loop is suspended in
    [_connect] or in the sleep that follows. *)
Record episode : Type := {
  ep_session : session;
  stop_in_connect : bool;
  stop_in_sleep : bool
}.

(** How the model leaves the loop: the condition [self._running] was found
    false, or the script of episodes ran out with the loop still going. *)
Inductive loop_exit : Type := Stopped | StillRunning.

Definition stop_requested (b : bool) : M unit :=
  if b then set_running false else ret tt.

Section Supervisor.
Context `{PyRuntime}.

Fixpoint reconnect_loop (eps : list episode) : M loop_exit :=
  s <- get;;
  if negb (_running s) then ret Stopped
  else
    match eps with
    | [] => ret StillRunning
    | ep :: rest =>
        try_except is_Exception (_connect (ep_session ep))
          (fun _ => ret tt);;;
        stop_requested (stop_in_connect ep);;;
        s <- get;;
        (if _running s then
           e <- ask;;
           sleep (reconnect_delay e);;;
           stop_requested (stop_in_sleep ep)
         else ret tt);;;
        reconnect_loop rest
    end.

Definition _cleanup : M unit := emit EvSessionClose.

Definition probe_request (e : env) : http_request :=
  HttpRequest "GET" (ha_url e ++ "/api/") (bearer e) None (Some 10).

Definition _test_ha_connection : M bool :=
  try_except is_Exception
    (e <- ask;;
     resp <- http_call (probe_request e);;
     if Z.eqb resp.1 200 then
       data <- lift resp.2;;
       _ <- lift (py_get data "version" (PStr "connected"));;
       ret true
     else ret false)
    (fun _ => ret false).

(** The reconnection loop and the cleanup behind it. *)
Definition supervise (eps : list episode) : M loop_exit :=
  r <- reconnect_loop eps;;
  match r with
  | Stopped => _cleanup;;; ret Stopped
  | StillRunning => ret StillRunning
  end.


End Supervisor.

(** ** A concrete world for running the model

    The theorems below hold for every [PyRuntime]; the examples are run
    with this one, on inputs for which neither field is consulted. *)
Definition plain_runtime : PyRuntime :=
  {| str_compound := fun v => "<" ++ type_name v ++ ">";
     update_nonmapping := fun _ v =>
       Raise (Exn TypeError
                ("'" ++ type_name v ++ "' object is not iterable")) |}.

(** A local API that gives the same reply to every request, and a
    transport that accepts every send. *)
Definition fixed_env (reply : http_reply) : env :=
  {| ha_url := "http://supervisor/core";
     ha_token := "secret";
     reconnect_delay := 5;
     local_api := fun _ _ => reply;
     ws_send_fault := fun _ => None |}.

Definition idle : state :=
  {| _running := true; _connected := false; trace := [] |}.

(** The capability policy on a decoded value: a string of the allow-list
    is allowed and nothing else is. *)
Definition isAllowed (domain : pyval) : bool :=
  match domain with
  | PStr d => bool_decide (d ∈ SAFE_DOMAINS)
  | _ => false
  end.

(** The values a set can hash. *)
Definition hashable (v : pyval) : bool :=
  match v with
  | PList _ | PDict _ => false
  | _ => true
  end.

Definition camera_snapshot : dict :=
  {[ "action" := PStr "call_service";
     "domain" := PStr "camera";
     "service" := PStr "snapshot" ]}.

Definition list_domain_command : dict :=
  {[ "action" := PStr "call_service";
     "domain" := PList [];
     "service" := PStr "snapshot" ]}.

(** ** Vocabulary of the properties *)

(** Every result that [m] returns satisfies [Q]. *)
Definition returns_only (Q : dict -> Prop) (m : M dict) : Prop :=
  forall e s r s', m e s = (Ok r, s') -> Q r.


(** An operation [m] that issues the request [req] turns a transport
    failure into the text of the exception, a status other than 200 into
    ["HA returned <status>"], and reports success only for status 200. *)
Definition translates_errors (m : M dict) (req : env -> http_request)
  : Prop :=
  forall e s,
    (forall x, local_api e (trace s) (req e) = HttpFail x ->
       (m e s).1 = Ok (failure (exn_str x)))
    /\ (forall st js, local_api e (trace s) (req e) = HttpResp st js ->
          st <> 200 ->
          (m e s).1 = Ok (failure ("HA returned " ++ pretty st)))
    /\ (forall r, (m e s).1 = Ok r -> r !! "success" = Some (PBool true) ->
          exists js, local_api e (trace s) (req e) = HttpResp 200 js).

(** The body that [_call_service] posts for a mapping [data]. *)
Definition posted_body (entity_id : pyval) (data : dict) : dict :=
  data ∪ (if py_truthy entity_id then {[ "entity_id" := entity_id ]} else ∅).

(** The text of [s] before its first ["."] (all of [s] when it has none). *)
Fixpoint domain_prefix (s : string) : string :=
  match s with
  | EmptyString => ""
  | String c rest =>
      if Ascii.eqb c "."%char then "" else String c (domain_prefix rest)
  end.

(** An entity of a state snapshot: an object whose [entity_id], when it has
    one, is a string and whose [attributes], when it has them, are an
    object. *)
Definition is_entity (v : pyval) : bool :=
  match v with
  | PDict d =>
      match d !! "entity_id" with
      | Some (PStr _) | None => true
      | Some _ => false
      end
      && match d !! "attributes" with
         | Some (PDict _) | None => true
         | Some _ => false
         end
  | _ => false
  end.

Definition entity_id_of (d : dict) : string :=
  match d !! "entity_id" with
  | Some (PStr s) => s
  | _ => ""
  end.

Definition friendly_name_of (d : dict) : option pyval :=
  match d !! "attributes" with
  | Some (PDict a) => a !! "friendly_name"
  | _ => None
  end.

(** What the listing shows of the entity [d]. *)
Definition listed (d : dict) : pyval :=
  entity_entry (PStr (entity_id_of d)) (default PNone (d !! "state"))
    (default (PStr (entity_id_of d)) (friendly_name_of d)).

(** Whether the entity [d] belongs under the domain [dom]: its id has a
    ["."] and [dom] is the text before the first one. *)
Definition filed_under (dom : string) (d : dict) : bool :=
  has_dot (entity_id_of d) && String.eqb (domain_prefix (entity_id_of d)) dom.

(** The entries of the snapshot that belong under [dom], in the order of
    the snapshot. *)
Definition entries_under (dom : string) (states : list pyval) : list pyval :=
  omap (fun v => match v with
                 | PDict d => if filed_under dom d then Some (listed d) else None
                 | _ => None
                 end) states.

(** The entry of a grouping: absent when nothing belongs there. *)
Definition group_of (entries : list pyval) : option (list pyval) :=
  match entries with
  | [] => None
  | _ => Some entries
  end.

(** The accumulated lists after a pass, from those before it and the
    entries the pass adds. *)
Definition extend (o : option (list pyval)) (l : list pyval)
  : option (list pyval) :=
  match o, l with
  | None, [] => None
  | _, _ => Some (default [] o ++ l)%list
  end.

(** A snapshot of three entities, one of them with an id that has no
    ["."]. *)
Definition kitchen_light : dict :=
  {[ "entity_id" := PStr "light.kitchen";
     "state" := PStr "on";
     "attributes" := PDict {[ "friendly_name" := PStr "Kitchen" ]} ]}.

Definition stray : dict :=
  {[ "entity_id" := PStr "stray"; "state" := PStr "unknown" ]}.

Definition hall_light : dict :=
  {[ "entity_id" := PStr "light.hall"; "state" := PStr "off" ]}.

Definition snapshot : list pyval :=
  [PDict kitchen_light; PDict stray; PDict hall_light].

(** [m] leaves [_running] alone and only appends events that satisfy [P]
    to the trace. *)
Definition emits {A} (P : event -> Prop) (m : M A) : Prop :=
  forall e s,
    _running (m e s).2 = _running s
    /\ exists d, trace (m e s).2 = (trace s ++ d)%list /\ Forall P d.

(** The events of a command: calls on the local API. *)
Definition is_http (ev : event) : Prop :=
  match ev with
  | EvHttp _ => True
  | _ => False
  end.

(** What the supervisor does, as seen in the trace: it attempts a
    connection, it waits, it releases the HTTP session. *)
Inductive supervisor_event : Type :=
  | Attempt
  | Wait (seconds : Z)
  | Cleanup.

Definition supervisor_view (ev : event) : option supervisor_event :=
  match ev with
  | EvWsConnect => Some Attempt
  | EvSleep seconds => Some (Wait seconds)
  | EvSessionClose => Some Cleanup
  | _ => None
  end.

Definition supervision (t : list event) : list supervisor_event :=
  omap supervisor_view t.

(** The events inside a session: none of them is the supervisor's. *)
Definition in_session (ev : event) : Prop := supervisor_view ev = None.

(** No [stop()] arrives during the episode. *)
Definition undisturbed (ep : episode) : bool :=
  negb (stop_in_connect ep) && negb (stop_in_sleep ep).

(** Frames and envelopes for the examples. *)
Definition text_frame (v : pyval) : WSMessage :=
  {| msg_type := TEXT; msg_loads := Ok v |}.

Definition malformed_frame : WSMessage :=
  {| msg_type := TEXT;
     msg_loads := Raise (Exn JSONDecodeError
                           "Expecting value: line 1 column 1 (char 0)") |}.

Definition binary_frame : WSMessage :=
  {| msg_type := BINARY;
     msg_loads := Raise (Exn TypeError
                           "the JSON object must be str, bytes or bytearray") |}.

Definition noop_envelope : pyval :=
  PDict {[ "type" := PStr "ha_command";
           "request_id" := PStr "r1";
           "command" := PDict {[ "action" := PStr "noop" ]} ]}.

Definition null_command_envelope : pyval :=
  PDict {[ "type" := PStr "ha_command";
           "request_id" := PStr "r1";
           "command" := PNone ]}.

Definition quiet_env : env := fixed_env (HttpResp 200 (Ok PNone)).

(** A session whose handshake is answered with an error, and one that is
    welcomed and then receives a command before the peer closes. *)
Definition rejected_session : session :=
  {| ws_connect_fault := None;
     handshake_reply := Ok (PDict {[ "type" := PStr "error" ]});
     inbound := [text_frame noop_envelope];
     inbound_end := None |}.

Definition welcomed_session : session :=
  {| ws_connect_fault := None;
     handshake_reply := Ok (PDict {[ "type" := PStr "welcome" ]});
     inbound := [text_frame noop_envelope];
     inbound_end := None |}.

Definition noop_response : pyval :=
  ha_response (PStr "r1") (failure "Unknown action: noop").

(** The supervisor events of [n] undisturbed turns of the loop: an attempt
    and a wait of the configured delay, [n] times. *)
Fixpoint turns (delay : Z) (n : nat) : list supervisor_event :=
  match n with
  | O => []
  | S n => Attempt :: Wait delay :: turns delay n
  end.

(** The supervisor events of the turn in which a stop arrives: the attempt,
    and the wait as well when the stop only arrives during the wait. *)
Definition last_turn (delay : Z) (ep : episode) : list supervisor_event :=
  if stop_in_connect ep then [Attempt] else [Attempt; Wait delay].

Definition quiet_episode : episode :=
  {| ep_session := welcomed_session;
     stop_in_connect := false;
     stop_in_sleep := false |}.

Definition stopped_episode : episode :=
  {| ep_session := rejected_session;
     stop_in_connect := false;
     stop_in_sleep := true |}.

(** ** Construction of the agent *)

(** [s.rstrip("/")]: [s] without its trailing slashes. *)
Fixpoint rstrip_slash (s : string) : string :=
  match s with
  | EmptyString => ""
  | String c rest =>
      match rstrip_slash rest with
      | EmptyString => if Ascii.eqb c "/"%char then "" else String c ""
      | r => String c r
      end
  end.

(** A [HomeAgent] after [__init__]: the two fields that only the websocket
    address uses, the fields and oracles that the operations read, and the
    mutable fields. *)
Record HomeAgent : Type := {
  server_url : string;
  agent_token : string;
  agent_env : env;
  agent_state : state
}.

(** [HomeAgent.__init__], in a world given by the two oracles. *)
Definition __init__ (server_url agent_token ha_url ha_token : string)
  (reconnect_delay : Z) (api : list event -> http_request -> http_reply)
  (fault : list event -> option exn) : HomeAgent :=
  {| server_url := rstrip_slash server_url;
     agent_token := agent_token;
     agent_env := {| ha_url := rstrip_slash ha_url;
                     ha_token := ha_token;
                     reconnect_delay := reconnect_delay;
                     local_api := api;
                     ws_send_fault := fault |};
     agent_state := {| _running := false; _connected := false; trace := [] |}
  |}.

(** [s.replace(old, new)] for a non-empty [old]: the occurrences of [old]
    are replaced from left to right, without overlap.  [skip] counts the
    characters of a replaced occurrence still to be passed over. *)
Fixpoint replace_from (old new : string) (skip : nat) (s : string) : string :=
  match s with
  | EmptyString => ""
  | String c rest =>
      match skip with
      | S k => replace_from old new k rest
      | O =>
          if String.prefix old s
          then new ++ replace_from old new (String.length old - 1) rest
          else String c (replace_from old new 0 rest)
      end
  end.

Definition str_replace (old new s : string) : string :=
  replace_from old new 0 s.

(** The address that [_connect] opens. *)
Definition ws_url (server_url agent_token : string) : string :=
  str_replace "http://" "ws://"
    (str_replace "https://" "wss://"
       (server_url ++ "/api/v1/agent/ws?token=" ++ agent_token)).

(** ** Heartbeat *)

Definition ping : pyval := PDict {[ "type" := PStr "ping" ]}.

(** [_ping_loop], run on its own.  Each element of [beats] stands for one
    turn of the loop and tells whether the session is marked disconnected
    while the loop sleeps in that turn.  The bare [except:] catches
    everything. *)
Fixpoint _ping_loop (beats : list bool) : M loop_exit :=
  s <- get;;
  if negb (_connected s) then ret Stopped
  else
    match beats with
    | [] => ret StillRunning
    | disconnected :: rest =>
        sent <- try_except (fun _ => true)
                  (ws_send_json ping;;; sleep 30;;; ret true)
                  (fun _ => ret false);;
        if sent then
          (if disconnected then set_connected false else ret tt);;;
          _ping_loop rest
        else ret Stopped
    end.

(** The effects of [n] heartbeats. *)
Fixpoint heartbeats (n : nat) : list event :=
  match n with
  | O => []
  | S n =>
      EvWsSend (PDict {[ "type" := PStr "ping" ]}) :: EvSleep 30
        :: heartbeats n
  end.

(** ** Stopping *)

(** The websocket held in [self._ws]: whether it is closed. *)
Record ws_handle : Type := { closed : bool }.

(** [stop], with the field [_ws] passed in and handed back. *)
Definition stop (_ws : option ws_handle) : M (option ws_handle) :=
  set_running false;;;
  match _ws with
  | Some ws => if negb (closed ws) then ret (Some {| closed := true |})
               else ret _ws
  | None => ret _ws
  end.

(** Examples. *)
Definition get_state_without_id : dict := {[ "action" := PStr "get_state" ]}.

Definition turn_on_kitchen : dict :=
  {[ "action" := PStr "call_service";
     "domain" := PStr "light";
     "service" := PStr "turn_on";
     "entity_id" := PStr "light.kitchen";
     "data" := PDict {[ "brightness" := PInt 80 ]} ]}.

Definition noop_message : dict :=
  {[ "type" := PStr "ha_command";
     "request_id" := PStr "r1";
     "command" := PDict {[ "action" := PStr "noop" ]} ]}.

(** A world whose transport refuses every send. *)
Definition closing_env : env :=
  {| ha_url := "http://supervisor/core";
     ha_token := "secret";
     reconnect_delay := 5;
     local_api := fun _ _ => HttpResp 200 (Ok PNone);
     ws_send_fault := fun _ =>
       Some (Exn ClientError "Cannot write to closing transport") |}.

(** [n] slashes. *)
Fixpoint slashes (n : nat) : string :=
  match n with
  | O => ""
  | S n => String "/"%char (slashes n)
  end.

(** Whether [old] occurs in [s]. *)
Fixpoint occurs (old s : string) : bool :=
  match s with
  | EmptyString => String.prefix old s
  | String _ rest => String.prefix old s || occurs old rest
  end.

(** What follows the scheme in the websocket address of a server. *)
Definition ws_path (host agent_token : string) : string :=
  host ++ "/api/v1/agent/ws?token=" ++ agent_token.

(** * Properties *)

(** ** Results and exceptions *)

Ltac unfold_agent :=
  unfold try_except, try_finally, bind, ask, get, emit, lift, raise, ret,
    http_call, ws_send_json, sleep, set_running, set_connected in *.

Lemma try_except_Exception_total {A} (m : M A) (h : exn -> A) e s :
  exists r s',
    try_except is_Exception m (fun x => ret (h x)) e s = (Ok r, s').
Proof.
  unfold try_except. destruct (m e s) as [[a|x] s'] eqn:E; simpl; eauto.
Qed.

Section ResultShape.
Context `{PyRuntime}.




(** Whatever the three operations do, raising included, a command
    dictionary gets a result, and the result is an error dictionary or
    what an operation returned. *)
Lemma execute_result (self : LocalApiClient) (Q : dict -> Prop) :
  (forall msg, Q (failure msg)) ->
  returns_only Q (get_all_entities self) ->
  (forall i, returns_only Q (get_entity_state self i)) ->
  (forall d sv i dt, returns_only Q (call_service self d sv i dt)) ->
  forall (command : dict) e s,
    exists r s',
      _execute_ha_command self (PDict command) e s = (Ok r, s') /\ Q r.
Proof.
  unfold returns_only. intros Hf Hg Hs Hc command e s.
  unfold _execute_ha_command, bind, lift, try_except, ret; simpl.
  destruct (py_eq_str _ "get_entities").
  { destruct (get_all_entities self e s) as [[r|x] s'] eqn:E; simpl;
      eauto 6. }
  destruct (py_eq_str _ "get_state").
  { destruct (get_entity_state self _ e s) as [[r|x] s'] eqn:E; simpl;
      eauto 6. }
  destruct (py_eq_str _ "call_service"); [|eauto 6].
  destruct (py_in_SAFE_DOMAINS _) as [[|]|x]; simpl; eauto 6.
  destruct (call_service self _ _ _ _ e s) as [[r|x] s'] eqn:E; simpl;
    eauto 6.
Qed.


End ResultShape.

(** ** Capability policy *)

Lemma failure_inj msg1 msg2 : failure msg1 = failure msg2 -> msg1 = msg2.
Proof.
  intros E. apply (f_equal (fun r : dict => r !! "error")) in E.
  vm_compute in E. congruence.
Qed.

Section Policy.
Context `{PyRuntime}.
Variable self : LocalApiClient.

(** C1, as amended.  For a command whose action is ["call_service"]:
    a hashable domain that the policy does not allow gives the error
    ["Domain '<domain>' not allowed"] and leaves the state as it was, so
    no operation of the client ran and no HTTP call was made; a domain
    that cannot be hashed (a list or a dict) gives the text of the
    [TypeError] as the error, again with the state untouched; an allowed
    domain is handed to [call_service] with the service, entity id and
    data of the command. *)
Theorem call_service_policy (command : dict) e s :
  command !! "action" = Some (PStr "call_service") ->
  let domain := default PNone (command !! "domain") in
  let run := _execute_ha_command self (PDict command) e s in
  (hashable domain = true -> isAllowed domain = false ->
     run = (Ok (failure ("Domain '" ++ py_str domain ++ "' not allowed")), s))
  /\ (hashable domain = false ->
      run = (Ok (failure ("unhashable type: '" ++ type_name domain ++ "'")),
             s))
  /\ (isAllowed domain = true ->
      run = try_except is_Exception
              (call_service self domain
                 (default PNone (command !! "service"))
                 (default PNone (command !! "entity_id"))
                 (default (PDict ∅) (command !! "data")))
              (fun x => ret (failure (exn_str x))) e s).
Proof.
  intros Ha domain run. subst run.
  unfold _execute_ha_command, bind, lift, try_except, ret; simpl.
  rewrite Ha; simpl. fold domain.
  unfold hashable, isAllowed, py_in_SAFE_DOMAINS.
  repeat split.
  - intros Hh Hn.
    destruct domain as [|[|]| | |d| |]; try discriminate; try reflexivity.
    rewrite Hn. reflexivity.
  - intros Hh.
    destruct domain as [| | | |d| |]; try discriminate; reflexivity.
  - intros Hal.
    destruct domain as [| | | |d| |]; try discriminate.
    rewrite Hal. reflexivity.
Qed.

End Policy.

Lemma call_service_policy_camera :
  @_execute_ha_command plain_runtime (@agent_client plain_runtime)
    (PDict camera_snapshot) (fixed_env (HttpResp 200 (Ok PNone))) idle
  = (Ok (failure "Domain 'camera' not allowed"), idle).
Proof.
  apply (@call_service_policy plain_runtime (@agent_client plain_runtime)
           camera_snapshot (fixed_env (HttpResp 200 (Ok PNone))) idle);
    reflexivity.
Defined.

(** C1, as stated, fails: a domain that is a JSON array is not in the
    allow-list, yet the error returned is the text of the [TypeError] that
    the membership test raises, not ["Domain '...' not allowed"]. *)
Lemma call_service_list_domain :
  @_execute_ha_command plain_runtime (@agent_client plain_runtime)
    (PDict list_domain_command) (fixed_env (HttpResp 200 (Ok PNone))) idle
  = (Ok (failure "unhashable type: 'list'"), idle)
  /\ forall d,
       failure "unhashable type: 'list'"
       <> failure ("Domain '" ++ d ++ "' not allowed").
Proof.
  split; [reflexivity|].
  intros d E. apply failure_inj in E. discriminate.
Qed.

(** ** Local API client: error translation *)

Lemma failure_not_success msg : failure msg !! "success" <> Some (PBool true).
Proof. vm_compute. discriminate. Qed.

Section ErrorTranslation.
Context `{PyRuntime}.

Ltac by_reply e s :=
  destruct (local_api e (trace s) _) as [x'|st' js'] eqn:Ereply; simpl.

Lemma get_all_entities_translates :
  translates_errors _get_all_entities states_request.
Proof.
  intros e s. unfold _get_all_entities. unfold_agent. repeat split.
  - intros x ->. reflexivity.
  - intros st js -> Hst. simpl.
    destruct (Z.eqb_spec st 200); [done|reflexivity].
  - intros r. by_reply e s.
    { intros [= <-] Hs. by apply failure_not_success in Hs. }
    destruct (Z.eqb_spec st' 200) as [->|]; simpl; [eauto|].
    intros [= <-] Hs. by apply failure_not_success in Hs.
Qed.

Lemma get_entity_state_translates i :
  translates_errors (_get_entity_state i) (state_request i).
Proof.
  intros e s. unfold _get_entity_state. unfold_agent. repeat split.
  - intros x ->. reflexivity.
  - intros st js -> Hst. simpl.
    destruct (Z.eqb_spec st 200); [done|reflexivity].
  - intros r. by_reply e s.
    { intros [= <-] Hs. by apply failure_not_success in Hs. }
    destruct (Z.eqb_spec st' 200) as [->|]; simpl; [eauto|].
    intros [= <-] Hs. by apply failure_not_success in Hs.
Qed.

Lemma call_service_translates d sv i (data : dict) :
  translates_errors (_call_service d sv i (PDict data))
    (service_request d sv (posted_body i data)).
Proof.
  intros e s. unfold _call_service, posted_body. unfold_agent. simpl.
  replace (if py_truthy i then <["entity_id":=i]> (∅ : dict) else ∅)
    with (if py_truthy i then ({["entity_id":=i]} : dict) else ∅)
    by (by destruct (py_truthy i)).
  repeat split.
  - intros x ->. reflexivity.
  - intros st js -> Hst. simpl.
    destruct (Z.eqb_spec st 200); [done|reflexivity].
  - intros r. by_reply e s.
    { intros [= <-] Hs. by apply failure_not_success in Hs. }
    destruct (Z.eqb_spec st' 200) as [->|]; simpl; [eauto|].
    intros [= <-] Hs. by apply failure_not_success in Hs.
Qed.

(** C5, as amended.  Each operation of the client answers
    [{success: False, error: str(e)}] when the HTTP call fails at
    transport level and [{success: False, error: "HA returned <status>"}]
    for every status other than 200, the other 2xx statuses included; a
    result with [success: True] is only ever returned for status 200.  At
    status 200 the single-entity lookup returns the decoded body as
    [state], and the service call returns ["Called <domain>.<service>"];
    a 503 reply to the lookup gives ["HA returned 503"]. *)
Theorem local_api_error_translation :
  translates_errors _get_all_entities states_request
  /\ (forall i, translates_errors (_get_entity_state i) (state_request i))
  /\ (forall d sv i (data : dict),
        translates_errors (_call_service d sv i (PDict data))
          (service_request d sv (posted_body i data)))
  /\ (forall i e s body,
        local_api e (trace s) (state_request i e) = HttpResp 200 (Ok body) ->
        (_get_entity_state i e s).1
        = Ok {[ "success" := PBool true; "state" := body ]})
  /\ (forall d sv i (data : dict) e s js,
        local_api e (trace s) (service_request d sv (posted_body i data) e)
        = HttpResp 200 js ->
        (_call_service d sv i (PDict data) e s).1
        = Ok {[ "success" := PBool true;
                "message" := PStr ("Called " ++ py_str d ++ "."
                                     ++ py_str sv) ]})
  /\ (forall i e s js,
        local_api e (trace s) (state_request i e) = HttpResp 503 js ->
        (_get_entity_state i e s).1 = Ok (failure "HA returned 503")).
Proof.
  split; [apply get_all_entities_translates|].
  split; [apply get_entity_state_translates|].
  split; [apply call_service_translates|].
  split; [|split].
  - intros i e s body Hr. unfold _get_entity_state. unfold_agent.
    rewrite Hr. reflexivity.
  - intros d sv i data e s js Hr.
    unfold _call_service, posted_body in *. unfold_agent. simpl.
    replace (if py_truthy i then <["entity_id":=i]> (∅ : dict) else ∅)
      with (if py_truthy i then ({["entity_id":=i]} : dict) else ∅)
      by (by destruct (py_truthy i)).
    rewrite Hr. reflexivity.
  - intros i e s js Hr.
    destruct (get_entity_state_translates i e s) as (_ & Hst & _).
    by apply (Hst 503 js).
Qed.

End ErrorTranslation.

(** The scenario of the specification: a 503 reply to the lookup of
    [light.kitchen]. *)
Lemma get_entity_state_503 :
  (@_get_entity_state plain_runtime (PStr "light.kitchen")
     (fixed_env (HttpResp 503 (Ok PNone))) idle).1
  = Ok (failure "HA returned 503").
Proof.
  apply (proj2 (proj2 (proj2 (proj2 (proj2
           (@local_api_error_translation plain_runtime)))))
           (PStr "light.kitchen") (fixed_env (HttpResp 503 (Ok PNone))) idle
           (Ok PNone)).
  reflexivity.
Defined.

(** C5, as stated, fails: 201 is a 2xx status, and the lookup answers it
    with an error and not with [success: True]. *)
Lemma get_entity_state_201 :
  (@_get_entity_state plain_runtime (PStr "light.kitchen")
     (fixed_env (HttpResp 201 (Ok (PDict ∅)))) idle).1
  = Ok (failure "HA returned 201")
  /\ failure "HA returned 201" !! "success" = Some (PBool false).
Proof. split; reflexivity. Qed.

(** ** Local API client: the body of a service call *)

Lemma posted_body_falsy entity_id (data : dict) :
  py_truthy entity_id = false -> posted_body entity_id data = data.
Proof.
  unfold posted_body. intros ->. apply (right_id_L ∅ (∪)).
Qed.

Lemma posted_body_truthy entity_id (data : dict) :
  py_truthy entity_id = true ->
  posted_body entity_id data !! "entity_id"
  = Some (default entity_id (data !! "entity_id"))
  /\ forall k, k <> "entity_id" -> posted_body entity_id data !! k = data !! k.
Proof.
  unfold posted_body. intros ->. split.
  - rewrite lookup_union, lookup_singleton_eq.
    by destruct (data !! "entity_id").
  - intros k Hk. rewrite lookup_union, lookup_singleton_ne by done.
    by destruct (data !! k).
Qed.

Section ServiceBody.
Context `{PyRuntime}.

(** C10.  For a mapping [data], [_call_service] issues exactly one request,
    a POST of [<ha_url>/api/services/<domain>/<service>] whose JSON body
    ([req_json]) holds the key [entity_id] from the argument only when the
    argument is truthy: for the empty string, as for [None], the
    body is [data] itself; for a truthy argument the body maps [entity_id]
    to the value [data] gives that key when it has one and to the argument
    otherwise, and agrees with [data] on every other key. *)
Theorem call_service_request_body (domain service entity_id : pyval)
  (data : dict) e s :
  exists req body,
    trace (_call_service domain service entity_id (PDict data) e s).2
    = (trace s ++ [EvHttp req])%list
    /\ req_method req = "POST"
    /\ req_url req
       = ha_url e ++ "/api/services/" ++ py_str domain ++ "/"
           ++ py_str service
    /\ req_json req = Some body
    /\ req = service_request domain service body e
    /\ (py_truthy entity_id = false -> body = data)
    /\ (entity_id = PStr "" \/ entity_id = PNone -> body = data)
    /\ (py_truthy entity_id = true ->
        body !! "entity_id" = Some (default entity_id (data !! "entity_id"))
        /\ forall k, k <> "entity_id" -> body !! k = data !! k).
Proof.
  exists (service_request domain service (posted_body entity_id data) e),
    (posted_body entity_id data).
  split; [|split; [done|split; [done|split; [done|split; [done|split;
    [|split]]]]]].
  - unfold _call_service, posted_body. unfold_agent. simpl.
    replace (if py_truthy entity_id
             then <["entity_id":=entity_id]> (∅ : dict) else ∅)
      with (if py_truthy entity_id
            then ({["entity_id":=entity_id]} : dict) else ∅)
      by (by destruct (py_truthy entity_id)).
    destruct (local_api e (trace s) _) as [x|st js]; simpl; [done|].
    by destruct (Z.eqb st 200).
  - apply posted_body_falsy.
  - intros [-> | ->]; by apply posted_body_falsy.
  - apply posted_body_truthy.
Qed.

End ServiceBody.

(** ** Local API client: grouping of the entities *)

Lemma split_dot_head s : exists t, split_dot s = domain_prefix s :: t.
Proof.
  induction s as [|c s [t IH]]; simpl; [eauto|].
  destruct (Ascii.eqb c "."); [eauto|]. rewrite IH. eauto.
Qed.

(** [entity_id.split(".")[0]] is the text before the first ["."]. *)
Lemma split_dot_first s : py_split_dot_first (PStr s) = Ok (domain_prefix s).
Proof.
  unfold py_split_dot_first. by destruct (split_dot_head s) as [t ->].
Qed.

(** [domain_prefix] is the text before the first ["."]. *)
Lemma domain_prefix_before_dot p rest :
  has_dot p = false -> domain_prefix (p ++ String "." rest) = p.
Proof.
  induction p as [|c p IH]; simpl; [done|].
  destruct (Ascii.eqb c "."); simpl; [done|].
  intros Hp. by rewrite IH.
Qed.

Lemma group_entity_spec (acc : gmap string (list pyval)) (d : dict) :
  is_entity (PDict d) = true ->
  exists acc',
    group_entity acc (PDict d) = Ok acc'
    /\ forall dom,
         acc' !! dom
         = if filed_under dom d
           then Some (default [] (acc !! dom) ++ [listed d])%list
           else acc !! dom.
Proof.
  intros Hent. unfold group_entity, filed_under, listed, entity_id_of,
    friendly_name_of. simpl in *.
  apply andb_prop in Hent as [Hid Hattr].
  destruct (d !! "entity_id") as [[| | | |id| |]|] eqn:Eid; try discriminate;
    simpl.
  - destruct (has_dot id) eqn:Edot; simpl; [|eauto].
    destruct (split_dot_head id) as [t ->]; simpl.
    destruct (d !! "attributes") as [[| | | | | |a]|] eqn:Eattr;
      try discriminate; simpl; eexists; (split; [reflexivity|]); intros dom;
      (destruct (String.eqb_spec (domain_prefix id) dom) as [<-|Hne];
       [ rewrite lookup_insert_eq; case_bool_decide as Hsome;
         [ reflexivity
         | rewrite lookup_insert_eq;
           by rewrite (proj2 (eq_None_not_Some _) Hsome) ]
       | rewrite lookup_insert_ne by done; case_bool_decide;
         [ reflexivity | by rewrite lookup_insert_ne ] ]).
  - eauto.
Qed.

Lemma group_entities_spec (states : list pyval) :
  forallb is_entity states = true ->
  forall acc,
    exists g,
      group_entities states acc = Ok g
      /\ forall dom, g !! dom = extend (acc !! dom) (entries_under dom states).
Proof.
  induction states as [|v states IH]; intros Hall acc; simpl in *.
  - exists acc. split; [done|]. intros dom. unfold extend; simpl.
    destruct (acc !! dom); simpl; [by rewrite app_nil_r|done].
  - apply andb_prop in Hall as [Hv Hall].
    destruct v as [| | | | | |d]; try discriminate.
    destruct (group_entity_spec acc d Hv) as (acc' & -> & Hacc'); simpl.
    destruct (IH Hall acc') as (g & -> & Hg).
    exists g. split; [done|]. intros dom.
    rewrite Hg, Hacc'. unfold entries_under; simpl.
    destruct (filed_under dom d); simpl; [|done].
    fold (entries_under dom states).
    rewrite <- app_assoc. simpl.
    by destruct (acc !! dom).
Qed.

Lemma entries_under_elem dom states entry :
  entry ∈ entries_under dom states <->
  exists d, PDict d ∈ states /\ filed_under dom d = true /\ entry = listed d.
Proof.
  unfold entries_under. rewrite list_elem_of_omap. split.
  - intros (v & Hv & Hf). destruct v as [| | | | | |d]; try discriminate.
    destruct (filed_under dom d) eqn:E; [|discriminate].
    injection Hf as <-. eauto.
  - intros (d & Hd & Hf & ->). exists (PDict d). by rewrite Hf.
Qed.

Lemma group_of_Some entries l :
  group_of entries = Some l -> l = entries.
Proof. destruct entries; simpl; congruence. Qed.

(** What the listing shows of an entity, written out: the three keys of
    the entry and where each value comes from. *)
Lemma listed_explicit (d : dict) :
  listed d
  = PDict {[ "entity_id" := PStr (entity_id_of d);
             "state" := default PNone (d !! "state");
             "name" := match d !! "attributes" with
                       | Some (PDict a) =>
                           default (PStr (entity_id_of d))
                             (a !! "friendly_name")
                       | _ => PStr (entity_id_of d)
                       end ]}.
Proof.
  unfold listed, entity_entry, friendly_name_of.
  by destruct (d !! "attributes") as [[| | | | | |a]|].
Qed.

(** An id with a ["."] is an id the entity really has. *)
Lemma dotted_id_present (d : dict) :
  has_dot (entity_id_of d) = true ->
  d !! "entity_id" = Some (PStr (entity_id_of d)).
Proof.
  unfold entity_id_of.
  by destruct (d !! "entity_id") as [[| | | |id| |]|].
Qed.

Section Grouping.
Context `{PyRuntime}.

(** C4.  When the local API answers the snapshot request with status 200
    and a list of entities, [_get_all_entities] succeeds and its [entities]
    mapping files each entity under the text before the first ["."] of its
    id: the list under a domain holds, in the order of the snapshot, one
    entry for each entity whose id has a ["."] and starts with that domain,
    and nothing else; an entity whose id has no ["."] appears nowhere and
    does not make the operation fail.  An entry is the object with the
    three keys [entity_id], [state] and [name]: the id, the state ([None]
    when the entity has none) and, as [name], the [friendly_name] of the
    attributes when there is one and the id otherwise. *)
Theorem get_all_entities_groups (states : list pyval) e s :
  forallb is_entity states = true ->
  local_api e (trace s) (states_request e)
  = HttpResp 200 (Ok (PList states)) ->
  exists entities : gmap string (list pyval),
    (_get_all_entities e s).1
    = Ok {[ "success" := PBool true;
            "entities" := PDict (PList <$> entities) ]}
    /\ (forall dom, entities !! dom = group_of (entries_under dom states))
    /\ (forall dom l entry,
          entities !! dom = Some l -> entry ∈ l ->
          exists d, PDict d ∈ states
                    /\ has_dot (entity_id_of d) = true
                    /\ domain_prefix (entity_id_of d) = dom
                    /\ entry = listed d
                    /\ d !! "entity_id" = Some (PStr (entity_id_of d))
                    /\ entry
                       = PDict
                           {[ "entity_id" := PStr (entity_id_of d);
                              "state" := default PNone (d !! "state");
                              "name" :=
                                match d !! "attributes" with
                                | Some (PDict a) =>
                                    default (PStr (entity_id_of d))
                                      (a !! "friendly_name")
                                | _ => PStr (entity_id_of d)
                                end ]})
    /\ (forall d,
          PDict d ∈ states -> has_dot (entity_id_of d) = true ->
          exists l, entities !! domain_prefix (entity_id_of d) = Some l
                    /\ listed d ∈ l
                    /\ PDict
                         {[ "entity_id" := PStr (entity_id_of d);
                            "state" := default PNone (d !! "state");
                            "name" :=
                              match d !! "attributes" with
                              | Some (PDict a) =>
                                  default (PStr (entity_id_of d))
                                    (a !! "friendly_name")
                              | _ => PStr (entity_id_of d)
                              end ]} ∈ l).
Proof.
  intros Hall Hreply.
  destruct (group_entities_spec states Hall ∅) as (g & Hg & Hlook).
  assert (Hgroup : forall dom, g !! dom = group_of (entries_under dom states)).
  { intros dom. rewrite Hlook, lookup_empty. unfold extend, group_of.
    by destruct (entries_under dom states). }
  exists g. split; [|split; [done|split]].
  - unfold _get_all_entities. unfold_agent. rewrite Hreply. simpl.
    by rewrite Hg.
  - intros dom l entry Hl Hin. rewrite Hgroup in Hl.
    apply group_of_Some in Hl as ->.
    apply entries_under_elem in Hin as (d & Hd & Hf & ->).
    apply andb_prop in Hf as [Hdot Heq]. apply String.eqb_eq in Heq.
    exists d. split; [done|]. split; [done|]. split; [done|].
    split; [done|]. split; [by apply dotted_id_present|].
    apply listed_explicit.
  - intros d Hd Hdot.
    assert (Hin : listed d ∈ entries_under (domain_prefix (entity_id_of d))
                                states).
    { apply entries_under_elem. exists d. split; [done|]. split; [|done].
      unfold filed_under. by rewrite Hdot, String.eqb_refl. }
    rewrite Hgroup. destruct (entries_under _ states) as [|x l] eqn:E.
    + by apply elem_of_nil in Hin.
    + simpl. exists (x :: l). split; [done|]. split; [done|].
      by rewrite <- listed_explicit.
Qed.

End Grouping.

(** The snapshot of three entities: the two lights are listed under
    [light], the kitchen light under its friendly name and the hall light
    under its id; the stray entity is listed nowhere. *)
Lemma get_all_entities_snapshot :
  exists entities : gmap string (list pyval),
    (_get_all_entities
       (fixed_env (HttpResp 200 (Ok (PList snapshot)))) idle).1
    = Ok {[ "success" := PBool true;
            "entities" := PDict (PList <$> entities) ]}
    /\ entities !! "light"
       = Some [PDict {[ "entity_id" := PStr "light.kitchen";
                        "state" := PStr "on";
                        "name" := PStr "Kitchen" ]};
               PDict {[ "entity_id" := PStr "light.hall";
                        "state" := PStr "off";
                        "name" := PStr "light.hall" ]}]
    /\ entities !! "stray" = None.
Proof.
  destruct (get_all_entities_groups snapshot
              (fixed_env (HttpResp 200 (Ok (PList snapshot)))) idle
              eq_refl eq_refl) as (g & Hrun & Hg & _).
  exists g. split; [exact Hrun|]. split; rewrite Hg; reflexivity.
Defined.

(** ** Frames of effects *)

Section Emits.
Context {A B : Type} (P : event -> Prop).

Lemma emits_ret (a : A) : emits P (ret a).
Proof. intros e s. split; [done|]. exists []. by rewrite app_nil_r. Qed.

Lemma emits_lift (r : res A) : emits P (lift r).
Proof. intros e s. split; [done|]. exists []. by rewrite app_nil_r. Qed.

Lemma emits_raise (x : exn) : emits P (raise (A := A) x).
Proof. intros e s. split; [done|]. exists []. by rewrite app_nil_r. Qed.

Lemma emits_bind (m : M A) (k : A -> M B) :
  emits P m -> (forall a, emits P (k a)) -> emits P (bind m k).
Proof.
  intros Hm Hk e s. unfold bind.
  destruct (Hm e s) as (Hr & d & Ht & Hd).
  destruct (m e s) as [[a|x] s1]; simpl in *; [|eauto].
  destruct (Hk a e s1) as (Hr' & d' & Ht' & Hd').
  split; [congruence|]. exists (d ++ d')%list.
  rewrite Ht', Ht, app_assoc. split; [done|]. by apply Forall_app.
Qed.

Lemma emits_try_except c (m : M A) (h : exn -> M A) :
  emits P m -> (forall x, emits P (h x)) -> emits P (try_except c m h).
Proof.
  intros Hm Hh e s. unfold try_except.
  destruct (Hm e s) as (Hr & d & Ht & Hd).
  destruct (m e s) as [[a|x] s1]; simpl in *; [eauto|].
  destruct (c x); simpl; [|eauto].
  destruct (Hh x e s1) as (Hr' & d' & Ht' & Hd').
  split; [congruence|]. exists (d ++ d')%list.
  rewrite Ht', Ht, app_assoc. split; [done|]. by apply Forall_app.
Qed.

Lemma emits_try_finally (m : M A) (f : M unit) :
  emits P m -> emits P f -> emits P (try_finally m f).
Proof.
  intros Hm Hf e s. unfold try_finally.
  destruct (Hm e s) as (Hr & d & Ht & Hd).
  destruct (m e s) as [r s1]; simpl in *.
  destruct (Hf e s1) as (Hr' & d' & Ht' & Hd').
  assert (Hgoal : _running (f e s1).2 = _running s
                  /\ exists d0, trace (f e s1).2 = (trace s ++ d0)%list
                                /\ Forall P d0).
  { split; [congruence|]. exists (d ++ d')%list.
    rewrite Ht', Ht, app_assoc. split; [done|]. by apply Forall_app. }
  by destruct (f e s1) as [[u|x] s2].
Qed.

End Emits.

Lemma emits_ask P : emits P ask.
Proof. intros e s. split; [done|]. exists []. by rewrite app_nil_r. Qed.

Lemma emits_get P : emits P get.
Proof. intros e s. split; [done|]. exists []. by rewrite app_nil_r. Qed.

Lemma emits_emit (P : event -> Prop) ev : P ev -> emits P (emit ev).
Proof. intros Hev e s. split; [done|]. exists [ev]. eauto. Qed.

Lemma emits_set_connected P b : emits P (set_connected b).
Proof. intros e s. split; [done|]. exists []. by rewrite app_nil_r. Qed.

Lemma emits_http_call (P : event -> Prop) req :
  P (EvHttp req) -> emits P (http_call req).
Proof.
  intros Hev e s. unfold http_call.
  destruct (local_api e (trace s) req); simpl; (split; [done|]);
    exists [EvHttp req]; eauto.
Qed.

Lemma emits_ws_send_json (P : event -> Prop) msg :
  P (EvWsSend msg) -> emits P (ws_send_json msg).
Proof.
  intros Hev e s. unfold ws_send_json.
  destruct (ws_send_fault e (trace s)); simpl; (split; [done|]).
  - exists []. by rewrite app_nil_r.
  - exists [EvWsSend msg]. eauto.
Qed.

Lemma emits_weaken {A} (P Q : event -> Prop) (m : M A) :
  (forall ev, P ev -> Q ev) -> emits P m -> emits Q m.
Proof.
  intros HPQ Hm e s. destruct (Hm e s) as (Hr & d & Ht & Hd).
  split; [done|]. exists d. split; [done|]. eapply Forall_impl; eauto.
Qed.

Ltac emits_step :=
  first
    [ apply emits_bind; [|intros ?]
    | apply emits_try_except; [|intros ?]
    | apply emits_try_finally
    | apply emits_ret
    | apply emits_lift
    | apply emits_raise
    | apply emits_ask
    | apply emits_get
    | apply emits_set_connected
    | apply emits_http_call; exact I
    | apply emits_http_call; reflexivity
    | apply emits_ws_send_json; reflexivity
    | apply emits_emit; reflexivity
    | match goal with |- emits _ (if ?b then _ else _) => destruct b end
    | match goal with |- emits _ (match ?o with _ => _ end) => destruct o end ].

Section SessionFrames.
Context `{PyRuntime}.

Lemma get_all_entities_emits : emits is_http _get_all_entities.
Proof. unfold _get_all_entities. repeat emits_step. Qed.

Lemma get_entity_state_emits i : emits is_http (_get_entity_state i).
Proof. unfold _get_entity_state. repeat emits_step. Qed.

Lemma call_service_emits d sv i dt : emits is_http (_call_service d sv i dt).
Proof. unfold _call_service. repeat emits_step. Qed.

Lemma execute_ha_command_emits command :
  emits is_http (_execute_ha_command agent_client command).
Proof.
  unfold _execute_ha_command. repeat emits_step;
    first [ apply get_all_entities_emits
          | apply get_entity_state_emits
          | apply call_service_emits ].
Qed.

Lemma is_http_in_session ev : is_http ev -> in_session ev.
Proof. by destruct ev. Qed.

Lemma handle_message_emits data : emits in_session (_handle_message data).
Proof.
  unfold _handle_message. repeat emits_step.
Qed.

Lemma message_loop_from_emits end_ frames :
  emits in_session (message_loop_from end_ frames).
Proof.
  induction frames as [|msg rest IH]; simpl.
  - repeat emits_step.
  - destruct (msg_type msg); simpl; try apply IH; try apply emits_ret.
    apply emits_bind; [|intros _; apply IH].
    apply emits_try_except; [|intros ?; apply emits_ret].
    apply emits_bind; [apply emits_lift|intros data].
    apply handle_message_emits.
Qed.

End SessionFrames.

(** ** Dispatch loop *)

Section DispatchLoop.
Context `{PyRuntime}.

(** C8.  A text frame that [json.loads] rejects with a [JSONDecodeError]
    is dropped: the loop goes on with the frames that follow exactly as if
    the frame had not been there, with the same result and the same
    effects, so a later well-formed frame is handled as usual. *)
Theorem malformed_text_frame_dropped end_ (msg : WSMessage) rest x e s :
  msg_type msg = TEXT ->
  msg_loads msg = Raise x ->
  exn_class_of x = JSONDecodeError ->
  message_loop_from end_ (msg :: rest) e s = message_loop_from end_ rest e s.
Proof.
  intros Hty Hloads Hclass. simpl. rewrite Hty.
  unfold bind, try_except, lift, ret. rewrite Hloads. simpl.
  unfold is_class. by rewrite Hclass.
Qed.

(** C6, as amended.  A frame of type ERROR, CLOSE or CLOSED ends the loop
    at once: nothing is done for it or for the frames behind it.  A frame
    of any other type that is not TEXT (CONTINUATION, BINARY, PING, PONG,
    CLOSING) is skipped and the loop goes on with the next frame.  Only a
    TEXT frame is decoded and handed to [_handle_message]. *)
Theorem message_loop_frame_types end_ (msg : WSMessage) rest e s :
  (msg_type msg = ERROR \/ msg_type msg = CLOSE \/ msg_type msg = CLOSED ->
   message_loop_from end_ (msg :: rest) e s = (Ok tt, s))
  /\ (msg_type msg = CONTINUATION \/ msg_type msg = BINARY
      \/ msg_type msg = PING \/ msg_type msg = PONG
      \/ msg_type msg = CLOSING ->
      message_loop_from end_ (msg :: rest) e s
      = message_loop_from end_ rest e s)
  /\ (msg_type msg = TEXT ->
      message_loop_from end_ (msg :: rest) e s
      = bind (try_except (is_class JSONDecodeError)
                (bind (lift (msg_loads msg)) _handle_message)
                (fun _ => ret tt))
          (fun _ => message_loop_from end_ rest) e s).
Proof.
  simpl. repeat split.
  - by intros [-> | [-> | ->]].
  - by intros [-> | [-> | [-> | [-> | ->]]]].
  - by intros ->.
Qed.

(** C7.  When the reply to the handshake is anything but an object whose
    [type] is ["welcome"] (another type, a value that is not an object, or
    an exception of [receive_json] such as a decoding error or a timeout),
    [_connect] returns normally to its caller having done no more than
    open the websocket and send the handshake: the heartbeat task is never
    created and the dispatch loop is never entered, and the two flags of
    the agent are as they were. *)
Theorem handshake_not_welcome_returns (sess : session) e s :
  (forall d, handshake_reply sess = Ok (PDict d) ->
             d !! "type" <> Some (PStr "welcome")) ->
  exists d,
    _connect sess e s
    = (Ok tt, State (_running s) (_connected s) (trace s ++ d)%list)
    /\ (d = [EvWsConnect] \/ d = [EvWsConnect; EvWsSend handshake])
    /\ (EvCreatePingTask ∉ d) /\ (EvMessageLoop ∉ d).
Proof.
  intros Hreply.
  assert (Hnot : forall d : list event,
             d = [EvWsConnect] \/ d = [EvWsConnect; EvWsSend handshake] ->
             (EvCreatePingTask ∉ d) /\ (EvMessageLoop ∉ d)).
  { intros d [-> | ->]; split; intros Hin;
      repeat (apply elem_of_cons in Hin as [Hin|Hin]; [discriminate|]);
      by apply elem_of_nil in Hin. }
  unfold _connect, ws_connect. unfold_agent. simpl.
  destruct (ws_connect_fault sess) as [x|]; simpl.
  { exists [EvWsConnect]. split; [by destruct (exn_class_of x)|]. eauto. }
  destruct (ws_send_fault e (trace s ++ [EvWsConnect])) as [x|]; simpl.
  { exists [EvWsConnect]. split; [by destruct (exn_class_of x)|]. eauto. }
  exists [EvWsConnect; EvWsSend handshake].
  split; [|eauto].
  rewrite <- app_assoc. simpl.
  destruct (handshake_reply sess) as [msg|x] eqn:Emsg; simpl;
    [|by destruct (exn_class_of x)].
  destruct msg as [| | | | | |d]; simpl; try done.
  specialize (Hreply d eq_refl).
  destruct (d !! "type") as [[| | | |t| |]|] eqn:Ety; simpl; try done.
  destruct (String.eqb_spec t "welcome") as [->|]; [done|done].
Qed.

End DispatchLoop.

(** A malformed frame followed by a command: the command is answered. *)
Lemma malformed_then_command :
  @message_loop_from plain_runtime None
    [malformed_frame; text_frame noop_envelope] quiet_env idle
  = (Ok tt, State true false [EvWsSend noop_response]).
Proof.
  rewrite (@malformed_text_frame_dropped plain_runtime None malformed_frame
             [text_frame noop_envelope]
             (Exn JSONDecodeError "Expecting value: line 1 column 1 (char 0)")
             quiet_env idle eq_refl eq_refl eq_refl).
  vm_compute. reflexivity.
Defined.

(** C6, as stated, fails: a binary frame is not a text frame, and the loop
    does not end on it; the command that follows is answered. *)
Lemma binary_frame_does_not_end_loop :
  msg_type binary_frame <> TEXT
  /\ @message_loop_from plain_runtime None
       [binary_frame; text_frame noop_envelope] quiet_env idle
     = (Ok tt, State true false [EvWsSend noop_response]).
Proof. split; [discriminate|]. vm_compute. reflexivity. Qed.

(** A handshake answered with [{type: "error"}]. *)
Lemma rejected_session_returns :
  exists d,
    @_connect plain_runtime rejected_session quiet_env idle
    = (Ok tt, State true false (trace idle ++ d)%list)
    /\ (d = [EvWsConnect] \/ d = [EvWsConnect; EvWsSend handshake])
    /\ (EvCreatePingTask ∉ d) /\ (EvMessageLoop ∉ d).
Proof.
  apply (@handshake_not_welcome_returns plain_runtime rejected_session
           quiet_env idle).
  intros d [= <-]. vm_compute. discriminate.
Defined.

(** ** Replies to commands *)

(** C2 fails on this envelope: its [command] is [null], the log line of
    [_handle_message] raises on it before the command is executed, nothing
    is sent, and the exception leaves the dispatch loop, so that the
    command behind it is not answered either. *)
Lemma null_command_unanswered :
  @_handle_message plain_runtime null_command_envelope quiet_env idle
  = (Raise (Exn AttributeError "'NoneType' object has no attribute 'get'"),
     idle)
  /\ @message_loop_from plain_runtime None
       [text_frame null_command_envelope; text_frame noop_envelope]
       quiet_env idle
     = (Raise (Exn AttributeError "'NoneType' object has no attribute 'get'"),
        idle).
Proof. split; vm_compute; reflexivity. Qed.

(** ** Reconnection supervisor *)

Lemma supervision_app t d :
  supervision (t ++ d) = (supervision t ++ supervision d)%list.
Proof. apply omap_app. Qed.

Lemma supervision_in_session d :
  Forall in_session d -> supervision d = [].
Proof.
  induction 1 as [|ev d Hev _ IH]; [done|].
  unfold supervision in *. simpl. by rewrite Hev.
Qed.

Section SupervisorLoop.
Context `{PyRuntime}.

(** A connection attempt returns normally, leaves [_running] alone, and
    shows the supervisor a single attempt. *)
Lemma connect_attempt (sess : session) e s :
  exists s',
    _connect sess e s = (Ok tt, s')
    /\ _running s' = _running s
    /\ supervision (trace s') = (supervision (trace s) ++ [Attempt])%list.
Proof.
  unfold _connect.
  match goal with |- context [bind (ws_connect sess) ?k] => set (body := k) end.
  assert (Hbody : emits in_session (body tt)).
  { apply emits_bind; [by apply emits_ws_send_json|intros _].
    apply emits_bind; [apply emits_lift|intros msg].
    apply emits_bind; [apply emits_lift|intros ty].
    destruct (py_eq_str ty "welcome"); [|apply emits_ret].
    apply emits_bind; [apply emits_set_connected|intros _].
    apply emits_bind; [by apply emits_emit|intros _].
    apply emits_try_finally.
    - unfold _message_loop.
      apply emits_bind; [by apply emits_emit|intros _].
      apply message_loop_from_emits.
    - apply emits_bind; [by apply emits_emit|intros _].
      apply emits_set_connected. }
  clearbody body.
  assert (Hh : forall x s', (if is_class WSServerHandshakeError x
                             then ret tt else ret tt) e s' = (Ok tt, s'))
    by (intros x s'; by destruct (is_class WSServerHandshakeError x)).
  assert (Hs1 : forall s1,
             s1 = State (_running s) (_connected s) (trace s ++ [EvWsConnect]) ->
             _running s1 = _running s
             /\ supervision (trace s1)
                = (supervision (trace s) ++ [Attempt])%list).
  { intros s1 ->. simpl. by rewrite supervision_app. }
  unfold ws_connect.
  destruct (ws_connect_fault sess) as [x|];
    unfold try_except, bind, emit, raise; cbn beta iota zeta;
    remember (State (_running s) (_connected s) (trace s ++ [EvWsConnect]))
      as s1 eqn:Es1; destruct (Hs1 s1 eq_refl) as [Hr1 Hsup1].
  { rewrite Hh. eauto. }
  unfold ret at 1. cbn beta iota zeta.
  destruct (Hbody e s1) as (Hr & d & Ht & Hd).
  assert (Hs2 : supervision (trace (body tt e s1).2)
                = (supervision (trace s) ++ [Attempt])%list).
  { by rewrite Ht, supervision_app, (supervision_in_session d), app_nil_r. }
  destruct (body tt e s1) as [[[]|x] s2]; cbn [fst snd] in *.
  - exists s2. split; [done|]. split; [congruence|exact Hs2].
  - rewrite Hh. exists s2. split; [done|]. split; [congruence|exact Hs2].
Qed.

(** One turn of the loop while the agent is running. *)
Lemma reconnect_loop_turn (ep : episode) rest e s :
  _running s = true ->
  exists s1,
    _running s1 = undisturbed ep
    /\ supervision (trace s1)
       = (supervision (trace s) ++ last_turn (reconnect_delay e) ep)%list
    /\ reconnect_loop (ep :: rest) e s = reconnect_loop rest e s1.
Proof.
  intros Hrun.
  destruct (connect_attempt (ep_session ep) e s) as (s0 & Econn & Hr & Hsup).
  cbn [reconnect_loop]. unfold bind at 1. unfold get at 1.
  rewrite Hrun. cbn [negb].
  unfold bind at 1. unfold try_except. rewrite Econn.
  unfold last_turn, stop_requested, undisturbed.
  destruct (stop_in_connect ep); simpl.
  - exists (State false (_connected s0) (trace s0)).
    split; [done|]. split; [done|].
    unfold bind, set_running, get, ret. reflexivity.
  - exists (State (negb (stop_in_sleep ep)) (_connected s0)
              (trace s0 ++ [EvSleep (reconnect_delay e)])).
    split; [done|]. split.
    + simpl. by rewrite supervision_app, Hsup, <- app_assoc.
    + unfold bind, get, ask, sleep, emit, ret, set_running.
      cbn beta iota zeta. rewrite Hr, Hrun. cbn beta iota zeta.
      destruct (stop_in_sleep ep); cbn beta iota zeta; cbn [negb];
        rewrite ?Hr, ?Hrun; reflexivity.
Qed.

Lemma reconnect_loop_stopped eps e s :
  _running s = false -> reconnect_loop eps e s = (Ok Stopped, s).
Proof.
  intros Hrun. destruct eps; cbn [reconnect_loop];
    unfold bind, get; by rewrite Hrun.
Qed.

Lemma undisturbed_last_turn delay ep :
  undisturbed ep = true -> last_turn delay ep = [Attempt; Wait delay].
Proof.
  unfold undisturbed, last_turn. by destruct (stop_in_connect ep).
Qed.

(** The loop over undisturbed episodes, followed by whatever comes next. *)
Lemma reconnect_loop_undisturbed (pre : list episode) rest e :
  forallb undisturbed pre = true ->
  forall s, _running s = true ->
    exists s1,
      _running s1 = true
      /\ supervision (trace s1)
         = (supervision (trace s)
              ++ turns (reconnect_delay e) (length pre))%list
      /\ reconnect_loop (pre ++ rest) e s = reconnect_loop rest e s1.
Proof.
  induction pre as [|ep pre IH]; intros Hall s Hrun;
    cbn [app length turns forallb] in *.
  - exists s. by rewrite app_nil_r.
  - apply andb_prop in Hall as [Hep Hall].
    destruct (reconnect_loop_turn ep (pre ++ rest) e s Hrun)
      as (s1 & Hr1 & Hsup1 & Hloop1).
    rewrite Hep in Hr1.
    destruct (IH Hall s1 Hr1) as (s2 & Hr2 & Hsup2 & Hloop2).
    exists s2. split; [done|]. split; [|by rewrite Hloop1].
    rewrite Hsup2, Hsup1, (undisturbed_last_turn _ _ Hep), <- app_assoc.
    done.
Qed.

(** C9.  Started with the agent running and driven through episodes in
    which no stop arrives, the supervisor shows one connection attempt and
    one wait of exactly [reconnect_delay] per episode, in that order, for
    as many episodes as there are, and is still running after them.  When
    a stop arrives in the episode that follows, that episode still shows
    its attempt (and its wait, when the stop comes during the wait), no
    further attempt is made, the loop exits and the cleanup runs. *)
Theorem supervisor_reconnects_until_stopped (pre : list episode) e s :
  _running s = true ->
  forallb undisturbed pre = true ->
  ((supervise pre e s).1 = Ok StillRunning
   /\ supervision (trace (supervise pre e s).2)
      = (supervision (trace s)
           ++ turns (reconnect_delay e) (length pre))%list)
  /\ (forall ep post,
        undisturbed ep = false ->
        (supervise (pre ++ ep :: post) e s).1 = Ok Stopped
        /\ supervision (trace (supervise (pre ++ ep :: post) e s).2)
           = (supervision (trace s)
                ++ turns (reconnect_delay e) (length pre)
                ++ last_turn (reconnect_delay e) ep
                ++ [Cleanup])%list).
Proof.
  intros Hrun Hall. split.
  - destruct (reconnect_loop_undisturbed pre [] e Hall s Hrun)
      as (s1 & Hr1 & Hsup1 & Hloop).
    rewrite app_nil_r in Hloop.
    unfold supervise, bind. rewrite Hloop. cbn [reconnect_loop].
    unfold bind, get. rewrite Hr1. simpl. done.
  - intros ep post Hep.
    destruct (reconnect_loop_undisturbed pre (ep :: post) e Hall s Hrun)
      as (s1 & Hr1 & Hsup1 & Hloop).
    destruct (reconnect_loop_turn ep post e s1 Hr1)
      as (s2 & Hr2 & Hsup2 & Hloop2).
    rewrite Hep in Hr2.
    unfold supervise, bind.
    rewrite Hloop, Hloop2, (reconnect_loop_stopped _ _ _ Hr2).
    unfold _cleanup, emit, ret. simpl. split; [done|].
    rewrite supervision_app, Hsup2, Hsup1. simpl.
    by rewrite <- !app_assoc.
Qed.

End SupervisorLoop.

(** Two undisturbed episodes and a third during whose wait a stop
    arrives. *)
Lemma supervisor_three_episodes :
  (@supervise plain_runtime
     [quiet_episode; quiet_episode; stopped_episode] quiet_env idle).1
  = Ok Stopped
  /\ supervision
       (trace (@supervise plain_runtime
                 [quiet_episode; quiet_episode; stopped_episode]
                 quiet_env idle).2)
     = [Attempt; Wait 5; Attempt; Wait 5; Attempt; Wait 5; Cleanup].
Proof.
  destruct (@supervisor_reconnects_until_stopped plain_runtime
              [quiet_episode; quiet_episode] quiet_env idle
              eq_refl eq_refl) as [_ Hstop].
  destruct (Hstop stopped_episode [] eq_refl) as [Hexit Hsup].
  split; [exact Hexit|exact Hsup].
Defined.

Section Replies.
Context `{PyRuntime}.

(** X17.  An [ha_command] envelope whose command is an object (or is missing,
    which stands for the empty object) is answered exactly once when the
    transport accepts the send: after the calls of the command on the
    local API, and nothing else, one message goes out: the object with
    [type] ["ha_response"], the [request_id] of the envelope ([None] when
    it has none) and, as [result], the result of executing the command. *)
Lemma handle_ha_command_replies_once (data command : dict) e s :
  data !! "type" = Some (PStr "ha_command") ->
  default (PDict ∅) (data !! "command") = PDict command ->
  (forall t, ws_send_fault e t = None) ->
  exists result calls,
    (_execute_ha_command agent_client (PDict command) e s).1 = Ok result
    /\ Forall is_http calls
    /\ (_handle_message (PDict data) e s).1 = Ok tt
    /\ trace (_handle_message (PDict data) e s).2
       = (trace s ++ calls
            ++ [EvWsSend
                  (PDict {[ "type" := PStr "ha_response";
                            "request_id" :=
                              default PNone (data !! "request_id");
                            "result" := PDict result ]})])%list.
Proof.
  intros Hty Hcmd Hsend.
  destruct (execute_result agent_client (fun _ => True)
              (fun _ => I) (fun _ _ _ _ _ => I) (fun _ _ _ _ _ _ => I)
              (fun _ _ _ _ _ _ _ _ _ => I) command e s)
    as (result & s' & Hrun & _).
  destruct (execute_ha_command_emits (PDict command) e s)
    as (_ & calls & Htrace & Hcalls).
  rewrite Hrun in Htrace. cbn [snd] in Htrace.
  exists result, calls. split; [by rewrite Hrun|]. split; [done|].
  unfold _handle_message, bind, lift. cbn [py_get].
  rewrite Hty, Hcmd.
  cbn -[_execute_ha_command ws_send_json ha_response].
  rewrite Hrun. unfold ws_send_json. rewrite Hsend. cbn [fst snd trace].
  rewrite Htrace. by rewrite <- app_assoc.
Qed.

End Replies.

(** * Further properties of the agent *)

(** ** Startup probe *)

Lemma test_ha_connection_run e s :
  exists ok,
    _test_ha_connection e s
    = (Ok ok, State (_running s) (_connected s)
                (trace s ++ [EvHttp (probe_request e)]))
    /\ (ok = true <->
        exists d, local_api e (trace s) (probe_request e)
                  = HttpResp 200 (Ok (PDict d))).
Proof.
  unfold _test_ha_connection. unfold_agent.
  destruct (local_api e (trace s) (probe_request e)) as [x|st js] eqn:Er;
    cbn -[probe_request].
  { exists false. split; [done|]. split; [done|]. by intros [d Hd]. }
  destruct (Z.eqb_spec st 200) as [->|Hst]; cbn -[probe_request].
  - destruct js as [[| | | | | |d]|x]; cbn -[probe_request];
      try (exists false; split; [done|]; split; [done|];
           by intros [d' Hd']).
    exists true. split; [done|]. split; [eauto|done].
  - exists false. split; [done|]. split; [done|].
    intros [d Hd]. congruence.
Qed.

(** X1.  The connectivity probe never raises.  It issues one request, a
    GET of [<ha_url>/api/] with the bearer token and a 10 second timeout,
    and answers [True] exactly when the reply has status 200 and a body
    that decodes to an object; a transport failure, another status, a body
    that does not decode or that is not an object all give [False]. *)
Theorem test_ha_connection_true_iff e s :
  exists ok,
    _test_ha_connection e s
    = (Ok ok, State (_running s) (_connected s)
                (trace s
                   ++ [EvHttp (HttpRequest "GET" (ha_url e ++ "/api/")
                                 [("Authorization", "Bearer " ++ ha_token e)]
                                 None (Some 10))]))
    /\ req_timeout (probe_request e) = Some 10
    /\ req_url (probe_request e) = ha_url e ++ "/api/"
    /\ req_method (probe_request e) = "GET"
    /\ req_headers (probe_request e)
       = [("Authorization", "Bearer " ++ ha_token e)]
    /\ req_json (probe_request e) = None
    /\ (ok = true <->
        exists d, local_api e (trace s)
                    (HttpRequest "GET" (ha_url e ++ "/api/")
                       [("Authorization", "Bearer " ++ ha_token e)]
                       None (Some 10))
                  = HttpResp 200 (Ok (PDict d))).
Proof.
  destruct (test_ha_connection_run e s) as (ok & Hrun & Hok).
  exists ok. split; [exact Hrun|]. repeat (split; [reflexivity|]).
  exact Hok.
Qed.

(** ** Stopping *)

Lemma supervise_not_running (eps : list episode) `{PyRuntime} e s :
  _running s = false ->
  supervise eps e s
  = (Ok Stopped, State false (_connected s) (trace s ++ [EvSessionClose])).
Proof.
  intros Hrun. unfold supervise, bind.
  rewrite (reconnect_loop_stopped _ _ _ Hrun).
  unfold _cleanup, emit, ret. by rewrite Hrun.
Qed.

Section Stopping.
Context `{PyRuntime}.

(** X2.  [stop] clears [_running] and leaves a websocket, if the agent
    holds one, closed; it records no effect of its own.  Whatever episodes
    would follow, the supervisor then makes no connection attempt: it
    leaves its loop at the next test and only runs the cleanup. *)
Theorem stop_ends_supervision (ws : option ws_handle) (eps : list episode)
  e s :
  exists ws',
    stop ws e s = (Ok ws', State false (_connected s) (trace s))
    /\ (forall h, ws' = Some h -> closed h = true)
    /\ (ws' = None <-> ws = None)
    /\ supervise eps e (stop ws e s).2
       = (Ok Stopped,
          State false (_connected s) (trace s ++ [EvSessionClose])).
Proof.
  assert (Hsup : supervise eps e (State false (_connected s) (trace s))
                 = (Ok Stopped,
                    State false (_connected s)
                      (trace s ++ [EvSessionClose])))
    by (by rewrite supervise_not_running).
  unfold stop, bind, set_running, ret.
  destruct ws as [[[|]]|]; cbn [closed negb snd].
  - exists (Some {| closed := true |}). split; [done|].
    split; [by intros h [= <-]|]. split; [done|exact Hsup].
  - exists (Some {| closed := true |}). split; [done|].
    split; [by intros h [= <-]|]. split; [done|exact Hsup].
  - exists None. split; [done|]. split; [done|]. split; [done|exact Hsup].
Qed.

End Stopping.

(** ** Connection attempts *)

Section Connecting.
Context `{PyRuntime}.

(** X3.  [_connect] never raises: whatever the session meets, control
    comes back to the supervisor normally and [_running] is as it was.
    When [ws_connect] fails, nothing is sent on the websocket and the two
    flags of the agent keep their values. *)
Theorem connect_never_raises (sess : session) e s :
  (exists s', _connect sess e s = (Ok tt, s') /\ _running s' = _running s)
  /\ (forall x, ws_connect_fault sess = Some x ->
        _connect sess e s
        = (Ok tt, State (_running s) (_connected s)
                    (trace s ++ [EvWsConnect]))).
Proof.
  split.
  - destruct (connect_attempt sess e s) as (s' & Hrun & Hr & _). eauto.
  - intros x Hx. unfold _connect, ws_connect. unfold_agent. rewrite Hx.
    cbn. by destruct (exn_class_of x).
Qed.

(** X4.  When the handshake is welcomed, [_connect] marks the agent
    connected, starts the heartbeat task and enters the dispatch loop; and
    however the loop ends, by exhaustion, by a closing frame or by an
    exception, the heartbeat task is cancelled as the last effect, the
    agent is marked disconnected again and [_connect] returns normally. *)
Theorem welcomed_session_teardown (sess : session) (reply : dict) e s :
  ws_connect_fault sess = None ->
  ws_send_fault e (trace s ++ [EvWsConnect]) = None ->
  handshake_reply sess = Ok (PDict reply) ->
  reply !! "type" = Some (PStr "welcome") ->
  exists s' mid,
    _connect sess e s = (Ok tt, s')
    /\ _connected s' = false
    /\ _running s' = _running s
    /\ trace s'
       = (trace s
            ++ [EvWsConnect; EvWsSend handshake; EvCreatePingTask;
                EvMessageLoop]
            ++ mid ++ [EvCancelPingTask])%list
    /\ Forall in_session mid.
Proof.
  intros Hconn Hsend Hreply Hty.
  unfold _connect, ws_connect, _message_loop.
  unfold try_except at 1. unfold bind at 1. unfold bind at 1.
  unfold emit at 1. rewrite Hconn. unfold ret at 1. cbn beta iota zeta.
  unfold bind at 1. unfold ws_send_json at 1. cbn [trace]. rewrite Hsend.
  cbn beta iota zeta.
  unfold bind at 1. unfold lift at 1. rewrite Hreply. cbn beta iota zeta.
  unfold bind at 1. unfold lift at 1. cbn [py_get]. rewrite Hty.
  cbn -[message_loop_from try_finally bind emit set_connected].
  unfold bind at 1. unfold set_connected at 1. cbn beta iota zeta.
  unfold bind at 1. unfold emit at 1. cbn beta iota zeta.
  cbn [_running _connected trace].
  unfold try_finally. unfold bind at 1. unfold emit at 1.
  cbn beta iota zeta. cbn [_running _connected trace].
  match goal with
  | |- context [message_loop_from ?en ?fr e ?st] =>
      destruct (message_loop_from_emits en fr e st) as (Hr & mid & Ht & Hmid);
      destruct (message_loop_from en fr e st) as [r s3]
  end.
  cbn [fst snd _running trace] in Hr, Ht.
  unfold bind, emit, set_connected, ret. cbn beta iota zeta.
  exists (State (_running s3) false (trace s3 ++ [EvCancelPingTask])), mid.
  split.
  - destruct r as [[]|x]; [done|]. by destruct (exn_class_of x).
  - split; [done|]. split; [done|]. split; [|done].
    cbn [trace]. rewrite Ht. by rewrite <- !app_assoc.
Qed.

End Connecting.

(** A welcomed session that receives one command and is then closed by the
    peer. *)
Lemma welcomed_session_run :
  exists s' mid,
    @_connect plain_runtime welcomed_session quiet_env idle = (Ok tt, s')
    /\ _connected s' = false
    /\ _running s' = _running idle
    /\ trace s'
       = (trace idle
            ++ [EvWsConnect; EvWsSend handshake; EvCreatePingTask;
                EvMessageLoop]
            ++ mid ++ [EvCancelPingTask])%list
    /\ Forall in_session mid.
Proof.
  apply (@welcomed_session_teardown plain_runtime welcomed_session
           {[ "type" := PStr "welcome" ]} quiet_env idle);
    reflexivity.
Defined.

(** ** Inbound messages *)

Section Inbound.
Context `{PyRuntime}.

(** X5.  A text frame whose JSON decodes to something other than an object
    (a list, a string, a number, [null]) is not dropped: reading its
    [type] raises an [AttributeError] that the loop does not catch, so the
    loop ends with that exception, nothing is sent, and the frames behind
    it are never looked at. *)
Theorem non_object_text_frame_ends_loop end_ (msg : WSMessage) rest v e s :
  msg_type msg = TEXT ->
  msg_loads msg = Ok v ->
  (forall d, v <> PDict d) ->
  message_loop_from end_ (msg :: rest) e s
  = (Raise (Exn AttributeError
              ("'" ++ type_name v ++ "' object has no attribute 'get'")), s).
Proof.
  intros Hty Hloads Hv. cbn [message_loop_from]. rewrite Hty.
  unfold bind, try_except, lift, _handle_message. rewrite Hloads.
  destruct v as [| | | | | |d]; try reflexivity.
  by destruct (Hv d).
Qed.

(** X6.  A message object whose [type] is not ["ha_command"] (a ["pong"],
    any other type, or no type at all) is consumed without any effect:
    nothing is executed, nothing is sent, nothing is raised. *)
Theorem other_message_types_ignored (data : dict) e s :
  data !! "type" <> Some (PStr "ha_command") ->
  _handle_message (PDict data) e s = (Ok tt, s).
Proof.
  intros Hty. unfold _handle_message, bind, lift. cbn [py_get].
  destruct (data !! "type") as [[| | | |t| |]|]; try reflexivity.
  cbn [default from_option id py_eq_str].
  destruct (String.eqb_spec t "pong"); [reflexivity|].
  destruct (String.eqb_spec t "ha_command") as [->|]; [done|reflexivity].
Qed.

(** X7.  When the transport refuses the reply, the exception of the send
    leaves [_handle_message] after the command has been executed: the
    calls on the local API have been made and no reply is recorded. *)
Theorem refused_reply_propagates (data command : dict) x e s :
  data !! "type" = Some (PStr "ha_command") ->
  default (PDict ∅) (data !! "command") = PDict command ->
  (forall t, ws_send_fault e t = Some x) ->
  _handle_message (PDict data) e s
  = (Raise x, (_execute_ha_command agent_client (PDict command) e s).2).
Proof.
  intros Hty Hcmd Hsend.
  destruct (execute_result agent_client (fun _ => True)
              (fun _ => I) (fun _ _ _ _ _ => I) (fun _ _ _ _ _ _ => I)
              (fun _ _ _ _ _ _ _ _ _ => I) command e s)
    as (result & s' & Hrun & _).
  unfold _handle_message, bind, lift. cbn [py_get].
  rewrite Hty, Hcmd.
  cbn -[_execute_ha_command ws_send_json ha_response].
  rewrite Hrun. unfold ws_send_json. by rewrite Hsend.
Qed.

End Inbound.

Lemma list_frame_ends_loop :
  @message_loop_from plain_runtime None
    [text_frame (PList []); text_frame noop_envelope] quiet_env idle
  = (Raise (Exn AttributeError "'list' object has no attribute 'get'"), idle).
Proof.
  apply (@non_object_text_frame_ends_loop plain_runtime None
           (text_frame (PList [])) [text_frame noop_envelope] (PList [])
           quiet_env idle eq_refl eq_refl).
  discriminate.
Defined.

Lemma pong_ignored :
  @_handle_message plain_runtime (PDict {[ "type" := PStr "pong" ]})
    quiet_env idle
  = (Ok tt, idle).
Proof.
  apply (@other_message_types_ignored plain_runtime
           {[ "type" := PStr "pong" ]} quiet_env idle).
  vm_compute. discriminate.
Defined.

Lemma noop_command_replied :
  exists result calls,
    (@_execute_ha_command plain_runtime (@agent_client plain_runtime)
       (PDict {[ "action" := PStr "noop" ]}) quiet_env idle).1 = Ok result
    /\ Forall is_http calls
    /\ (@_handle_message plain_runtime (PDict noop_message)
          quiet_env idle).1 = Ok tt
    /\ trace (@_handle_message plain_runtime (PDict noop_message)
                quiet_env idle).2
       = (trace idle ++ calls
            ++ [EvWsSend
                  (PDict {[ "type" := PStr "ha_response";
                            "request_id" :=
                              default PNone (noop_message !! "request_id");
                            "result" := PDict result ]})])%list.
Proof.
  apply (@handle_ha_command_replies_once plain_runtime noop_message
           {[ "action" := PStr "noop" ]} quiet_env idle);
    reflexivity.
Defined.

Lemma refused_reply_example :
  @_handle_message plain_runtime (PDict noop_message) closing_env idle
  = (Raise (Exn ClientError "Cannot write to closing transport"), idle).
Proof.
  rewrite (@refused_reply_propagates plain_runtime noop_message
             {[ "action" := PStr "noop" ]}
             (Exn ClientError "Cannot write to closing transport")
             closing_env idle eq_refl eq_refl (fun _ => eq_refl)).
  vm_compute. reflexivity.
Defined.

(** ** Local API client: requests and failures *)

Lemma get_all_entities_run e s :
  exists r,
    _get_all_entities e s
    = (Ok r, State (_running s) (_connected s)
               (trace s ++ [EvHttp (states_request e)])).
Proof.
  unfold _get_all_entities. unfold_agent.
  destruct (local_api e (trace s) (states_request e)) as [x|st js];
    cbn -[states_request]; [eauto|].
  destruct (Z.eqb st 200); cbn -[states_request]; [|eauto].
  destruct js as [states|x]; cbn -[states_request]; [|eauto].
  destruct (py_iter states) as [items|x]; cbn -[states_request]; [|eauto].
  destruct (group_entities items ∅) as [g|x]; cbn -[states_request]; eauto.
Qed.

Section Requests.
Context `{PyRuntime}.

Lemma get_entity_state_run i e s :
  exists r,
    _get_entity_state i e s
    = (Ok r, State (_running s) (_connected s)
               (trace s ++ [EvHttp (state_request i e)])).
Proof.
  unfold _get_entity_state. unfold_agent.
  destruct (local_api e (trace s) (state_request i e)) as [x|st js];
    cbn -[state_request]; [eauto|].
  destruct (Z.eqb st 200); cbn -[state_request]; [|eauto].
  destruct js as [body|x]; cbn -[state_request]; eauto.
Qed.

(** X8.  The two lookups never raise and issue exactly one request each,
    whatever the local API answers: the listing a GET of
    [<ha_url>/api/states], the single lookup a GET of
    [<ha_url>/api/states/<entity_id>], both with the bearer token and
    without a body; they change neither flag of the agent. *)
Theorem lookups_issue_one_request i e s :
  (exists r,
     _get_all_entities e s
     = (Ok r, State (_running s) (_connected s)
                (trace s
                   ++ [EvHttp (HttpRequest "GET" (ha_url e ++ "/api/states")
                                 [("Authorization", "Bearer " ++ ha_token e)]
                                 None None)])))
  /\ (exists r,
        _get_entity_state i e s
        = (Ok r, State (_running s) (_connected s)
                   (trace s
                      ++ [EvHttp (HttpRequest "GET"
                                    (ha_url e ++ "/api/states/" ++ py_str i)
                                    [("Authorization",
                                      "Bearer " ++ ha_token e)]
                                    None None)])))
  /\ req_method (states_request e) = "GET"
  /\ req_url (states_request e) = ha_url e ++ "/api/states"
  /\ req_headers (states_request e)
     = [("Authorization", "Bearer " ++ ha_token e)]
  /\ req_json (states_request e) = None
  /\ req_method (state_request i e) = "GET"
  /\ req_url (state_request i e) = ha_url e ++ "/api/states/" ++ py_str i
  /\ req_headers (state_request i e)
     = [("Authorization", "Bearer " ++ ha_token e)]
  /\ req_json (state_request i e) = None.
Proof.
  split; [exact (get_all_entities_run e s)|].
  split; [exact (get_entity_state_run i e s)|].
  repeat (split; [reflexivity|]). reflexivity.
Qed.

(** X9.  A [get_state] command is answered by the single lookup of its
    [entity_id], and a command that has no [entity_id] is not refused: the
    lookup is made for [None], that is, the agent requests
    [<ha_url>/api/states/None]. *)
Theorem get_state_forwards_entity_id (command : dict) e s :
  command !! "action" = Some (PStr "get_state") ->
  _execute_ha_command agent_client (PDict command) e s
  = _get_entity_state (default PNone (command !! "entity_id")) e s
  /\ (command !! "entity_id" = None ->
      trace (_execute_ha_command agent_client (PDict command) e s).2
      = (trace s
           ++ [EvHttp (HttpRequest "GET" (ha_url e ++ "/api/states/None")
                         (bearer e) None None)])%list).
Proof.
  intros Hact.
  assert (Hrun : _execute_ha_command agent_client (PDict command) e s
                 = _get_entity_state (default PNone (command !! "entity_id"))
                     e s).
  { unfold _execute_ha_command, bind, lift. cbn [py_get].
    rewrite Hact.
    cbn -[_get_entity_state _get_all_entities _call_service].
    unfold try_except.
    by destruct (get_entity_state_run
                   (default PNone (command !! "entity_id")) e s)
      as (r & ->). }
  split; [exact Hrun|].
  intros Hid. rewrite Hrun, Hid.
  by destruct (get_entity_state_run (default PNone None) e s) as (r & ->).
Qed.

(** X10.  A [call_service] command for an allowed domain, with a mapping
    (or no) [data], that the local API answers with status 200 makes one
    request, a POST of [<ha_url>/api/services/<domain>/<service>] with
    the bearer token and the JSON content type, whose body is [data] with
    the [entity_id] of the command merged in when it is truthy, and
    returns [{success: True, message: "Called <domain>.<service>"}]. *)
Theorem allowed_service_call (command data : dict) d sv js e s :
  command !! "action" = Some (PStr "call_service") ->
  command !! "domain" = Some (PStr d) ->
  d ∈ SAFE_DOMAINS ->
  command !! "service" = Some (PStr sv) ->
  default (PDict ∅) (command !! "data") = PDict data ->
  local_api e (trace s)
    (HttpRequest "POST" (ha_url e ++ "/api/services/" ++ d ++ "/" ++ sv)
       [("Authorization", "Bearer " ++ ha_token e);
        ("Content-Type", "application/json")]
       (Some (data ∪ (if py_truthy (default PNone (command !! "entity_id"))
                      then {[ "entity_id" :=
                                default PNone (command !! "entity_id") ]}
                      else ∅)))
       None)
  = HttpResp 200 js ->
  _execute_ha_command agent_client (PDict command) e s
  = (Ok {[ "success" := PBool true;
           "message" := PStr ("Called " ++ d ++ "." ++ sv) ]},
     State (_running s) (_connected s)
       (trace s
          ++ [EvHttp
                (HttpRequest "POST"
                   (ha_url e ++ "/api/services/" ++ d ++ "/" ++ sv)
                   [("Authorization", "Bearer " ++ ha_token e);
                    ("Content-Type", "application/json")]
                   (Some (data
                            ∪ (if py_truthy
                                    (default PNone (command !! "entity_id"))
                               then {[ "entity_id" :=
                                         default PNone
                                           (command !! "entity_id") ]}
                               else ∅)))
                   None)]))
  /\ req_method (service_request (PStr d) (PStr sv)
                   (posted_body (default PNone (command !! "entity_id"))
                      data) e) = "POST"
  /\ req_url (service_request (PStr d) (PStr sv)
                (posted_body (default PNone (command !! "entity_id"))
                   data) e)
     = ha_url e ++ "/api/services/" ++ d ++ "/" ++ sv
  /\ req_json (service_request (PStr d) (PStr sv)
                 (posted_body (default PNone (command !! "entity_id"))
                    data) e)
     = Some (data ∪ (if py_truthy (default PNone (command !! "entity_id"))
                     then {[ "entity_id" :=
                               default PNone (command !! "entity_id") ]}
                     else ∅)).
Proof.
  intros Hact Hdom Hsafe Hsv Hdata Hreply.
  split; [|done].
  unfold _execute_ha_command, bind, lift. cbn [py_get].
  rewrite Hact, Hdom, Hsv, Hdata.
  cbn -[_get_entity_state _get_all_entities _call_service SAFE_DOMAINS
        py_in_SAFE_DOMAINS].
  unfold py_in_SAFE_DOMAINS. rewrite (bool_decide_eq_true_2 _ Hsafe).
  cbn -[_get_entity_state _get_all_entities _call_service].
  unfold _call_service. unfold_agent. cbn [dict_update].
  replace (if py_truthy (default PNone (command !! "entity_id"))
           then <["entity_id":=default PNone (command !! "entity_id")]>
                  (∅ : dict)
           else ∅)
    with (if py_truthy (default PNone (command !! "entity_id"))
          then ({["entity_id":=default PNone (command !! "entity_id")]} : dict)
          else ∅)
    by (by destruct (py_truthy _)).
  cbn beta iota zeta.
  change (service_request (PStr d) (PStr sv)
            (data ∪ (if py_truthy (default PNone (command !! "entity_id"))
                     then {["entity_id" :=
                              default PNone (command !! "entity_id")]}
                     else ∅)) e)
    with (HttpRequest "POST"
            (ha_url e ++ "/api/services/" ++ d ++ "/" ++ sv)
            [("Authorization", "Bearer " ++ ha_token e);
             ("Content-Type", "application/json")]
            (Some (data
                     ∪ (if py_truthy (default PNone (command !! "entity_id"))
                        then {["entity_id" :=
                                 default PNone (command !! "entity_id")]}
                        else ∅)))
            None).
  rewrite Hreply. reflexivity.
Qed.

End Requests.

Lemma get_state_without_id_requests_None :
  @_execute_ha_command plain_runtime (@agent_client plain_runtime)
    (PDict get_state_without_id) quiet_env idle
  = @_get_entity_state plain_runtime
      (default PNone (get_state_without_id !! "entity_id")) quiet_env idle
  /\ (get_state_without_id !! "entity_id" = None ->
      trace (@_execute_ha_command plain_runtime (@agent_client plain_runtime)
               (PDict get_state_without_id) quiet_env idle).2
      = (trace idle
           ++ [EvHttp (HttpRequest "GET"
                         (ha_url quiet_env ++ "/api/states/None")
                         (bearer quiet_env) None None)])%list).
Proof.
  apply (@get_state_forwards_entity_id plain_runtime get_state_without_id
           quiet_env idle).
  reflexivity.
Defined.

(** The scenario of the specification: the kitchen light is turned on. *)
Lemma turn_on_kitchen_succeeds :
  @_execute_ha_command plain_runtime (@agent_client plain_runtime)
    (PDict turn_on_kitchen) quiet_env idle
  = (Ok {[ "success" := PBool true;
           "message" := PStr "Called light.turn_on" ]},
     State true false
       [EvHttp
          (HttpRequest "POST"
             "http://supervisor/core/api/services/light/turn_on"
             [("Authorization", "Bearer secret");
              ("Content-Type", "application/json")]
             (Some {[ "brightness" := PInt 80;
                      "entity_id" := PStr "light.kitchen" ]})
             None)]).
Proof.
  destruct (@allowed_service_call plain_runtime turn_on_kitchen
              {[ "brightness" := PInt 80 ]} "light" "turn_on" (Ok PNone)
              quiet_env idle eq_refl eq_refl) as [Hrun _];
    [by vm_compute|reflexivity|reflexivity|reflexivity|].
  rewrite Hrun. by vm_compute.
Defined.

(** ** Grouping: keys and failures *)



Lemma group_entities_app l1 l2 acc :
  group_entities (l1 ++ l2) acc
  = rbind (group_entities l1 acc) (group_entities l2).
Proof.
  revert acc. induction l1 as [|v l1 IH]; intros acc; simpl; [done|].
  destruct (group_entity acc v); simpl; [apply IH|done].
Qed.



(** X12.  A snapshot that holds something that is not an object, behind
    any number of well-formed entities, makes the whole listing fail: the
    operation does not raise and does not return the entities it had
    already grouped, it returns the text of the [AttributeError] as the
    error. *)
Theorem snapshot_with_non_object_fails (pre post : list pyval) v e s :
  forallb is_entity pre = true ->
  (forall d, v <> PDict d) ->
  local_api e (trace s) (states_request e)
  = HttpResp 200 (Ok (PList (pre ++ v :: post))) ->
  (_get_all_entities e s).1
  = Ok (failure ("'" ++ type_name v ++ "' object has no attribute 'get'")).
Proof.
  intros Hall Hv Hreply.
  destruct (group_entities_spec pre Hall ∅) as (g & Hg & _).
  unfold _get_all_entities. unfold_agent. rewrite Hreply. simpl.
  rewrite group_entities_app, Hg. simpl.
  destruct v as [| | | | | |d]; try reflexivity.
  by destruct (Hv d).
Qed.


Lemma snapshot_with_null_fails :
  (_get_all_entities
     (fixed_env (HttpResp 200 (Ok (PList [PDict kitchen_light; PNone]))))
     idle).1
  = Ok (failure "'NoneType' object has no attribute 'get'").
Proof.
  apply (snapshot_with_non_object_fails [PDict kitchen_light] [] PNone
           (fixed_env (HttpResp 200 (Ok (PList [PDict kitchen_light; PNone]))))
           idle);
    [reflexivity|discriminate|reflexivity].
Defined.

(** ** Construction *)

Section TrailingSlashes.
#[local] Arguments String.append : simpl nomatch.

Lemma rstrip_slash_spec s :
  (forall t, rstrip_slash s <> t ++ "/")
  /\ exists n, s = rstrip_slash s ++ slashes n.
Proof.
  induction s as [|c s [Hno [n Hn]]]; simpl.
  - split; [by intros [|? []]|]. by exists 0%nat.
  - destruct (rstrip_slash s) as [|c' r] eqn:Er.
    + destruct (Ascii.eqb_spec c "/") as [->|Hc].
      * split; [by intros [|? []]|]. exists (S n). simpl in *.
        by rewrite <- Hn.
      * split.
        -- intros [|c1 [|c2 t]]; simpl; intros Heq; by simplify_eq.
        -- exists n. simpl in *. by rewrite <- Hn.
    + split.
      * intros [|c1 t]; simpl; [discriminate|].
        intros [= -> Ht]. by apply (Hno t).
      * exists n. simpl in *. by rewrite <- Hn.
Qed.

End TrailingSlashes.

(** X13.  The constructor strips the trailing slashes of the two base
    addresses and nothing else: the stored address does not end in ["/"]
    and the argument is the stored address followed by slashes only.  A
    new agent is neither running nor connected, and keeps the token and
    the reconnect delay as given. *)
Theorem init_strips_trailing_slashes
  (server ha token ha_tok : string) (delay : Z) api fault :
  let a := __init__ server token ha ha_tok delay api fault in
  (forall t, ha_url (agent_env a) <> t ++ "/")
  /\ (exists n, ha = ha_url (agent_env a)
                     ++ slashes n)
  /\ (forall t, server_url a <> t ++ "/")
  /\ (exists n, server = server_url a
                         ++ slashes n)
  /\ _running (agent_state a) = false
  /\ _connected (agent_state a) = false
  /\ ha_token (agent_env a) = ha_tok
  /\ reconnect_delay (agent_env a) = delay.
Proof.
  cbn. destruct (rstrip_slash_spec ha) as [H1 H2].
  destruct (rstrip_slash_spec server) as [H3 H4]. done.
Qed.

(** ** Websocket address *)

Section Address.
#[local] Arguments String.append : simpl nomatch.

Lemma prefix_empty s : String.prefix "" s = true.
Proof. by destruct s. Qed.

Lemma replace_from_absent old new s :
  occurs old s = false -> replace_from old new 0 s = s.
Proof.
  induction s as [|c s IH]; [done|].
  cbn [occurs replace_from]. intros Hocc.
  apply orb_false_elim in Hocc as [Hpre Hrest].
  rewrite Hpre. by rewrite (IH Hrest).
Qed.

(** X14.  The websocket address is the server address with its scheme
    changed, [https://] to [wss://] and [http://] to [ws://], followed by
    the agent path and the token.  The two replacements run over the whole
    address, so the rest of it, token included, passes through them too;
    it comes out unchanged when neither scheme occurs in it. *)
Theorem ws_url_scheme (host token : string) :
  ws_url ("https://" ++ host) token
  = "wss://" ++ str_replace "http://" "ws://"
                  (str_replace "https://" "wss://" (ws_path host token))
  /\ ws_url ("http://" ++ host) token
     = "ws://" ++ str_replace "http://" "ws://"
                    (str_replace "https://" "wss://" (ws_path host token))
  /\ (occurs "https://" (ws_path host token) = false ->
      occurs "http://" (ws_path host token) = false ->
      ws_url ("https://" ++ host) token = "wss://" ++ ws_path host token
      /\ ws_url ("http://" ++ host) token = "ws://" ++ ws_path host token).
Proof.
  assert (Hs : ws_url ("https://" ++ host) token
               = "wss://" ++ str_replace "http://" "ws://"
                    (str_replace "https://" "wss://" (ws_path host token))).
  { unfold ws_url, str_replace, ws_path. cbn.
    rewrite prefix_empty. reflexivity. }
  assert (Hp : ws_url ("http://" ++ host) token
               = "ws://" ++ str_replace "http://" "ws://"
                    (str_replace "https://" "wss://" (ws_path host token))).
  { unfold ws_url, str_replace, ws_path. cbn.
    rewrite prefix_empty. reflexivity. }
  split; [exact Hs|]. split; [exact Hp|].
  intros H1 H2. rewrite Hs, Hp. unfold str_replace.
  by rewrite (replace_from_absent _ _ _ H1), (replace_from_absent _ _ _ H2).
Qed.

End Address.

Lemma ws_url_example :
  ws_url ("https://" ++ "ai.example.org") "tok-1"
  = "wss://ai.example.org/api/v1/agent/ws?token=tok-1".
Proof.
  destruct (ws_url_scheme "ai.example.org" "tok-1") as (_ & _ & Hplain).
  destruct (Hplain eq_refl eq_refl) as [Hs _]. exact Hs.
Defined.

(** ** Heartbeat *)

(** X15.  The heartbeat loop never raises.  All it does is send
    [{type: "ping"}] and sleep 30 seconds, in turn, so that its effects
    are a whole number of heartbeats, and a turn whose send is accepted
    starts with one; it does nothing at all when the
    agent is not connected, and a send that fails ends it at once,
    silently and without a sleep. *)
Theorem ping_loop_heartbeats (beats : list bool) e s :
  (exists r s' n,
     _ping_loop beats e s = (Ok r, s')
     /\ (n <= length beats)%nat
     /\ trace s' = (trace s ++ heartbeats n)%list
     /\ _running s' = _running s)
  /\ (forall n,
        heartbeats (S n)
        = EvWsSend (PDict {[ "type" := PStr "ping" ]}) :: EvSleep 30
            :: heartbeats n)
  /\ (forall b rest,
        _connected s = true -> ws_send_fault e (trace s) = None ->
        exists r s' tail,
          _ping_loop (b :: rest) e s = (Ok r, s')
          /\ trace s'
             = (trace s
                  ++ EvWsSend (PDict {[ "type" := PStr "ping" ]})
                  :: EvSleep 30 :: tail)%list)
  /\ (_connected s = false -> _ping_loop beats e s = (Ok Stopped, s))
  /\ (forall x b rest,
        beats = b :: rest -> _connected s = true ->
        ws_send_fault e (trace s) = Some x ->
        _ping_loop beats e s = (Ok Stopped, s)).
Proof.
  assert (Hloop : forall beats s,
             exists r s' n,
               _ping_loop beats e s = (Ok r, s')
               /\ (n <= length beats)%nat
               /\ trace s' = (trace s ++ heartbeats n)%list
               /\ _running s' = _running s).
  { clear beats s. intros beats.
    induction beats as [|b rest IH]; intros s.
    + exists (if _connected s then StillRunning else Stopped), s, 0%nat.
      cbn [_ping_loop heartbeats length]. unfold bind, get, ret.
      rewrite app_nil_r. by destruct (_connected s).
    + cbn [_ping_loop]. unfold bind at 1. unfold get at 1.
      destruct (_connected s) eqn:Hc; cbn [negb].
      2: { exists Stopped, s, 0%nat. cbn [heartbeats length].
           rewrite app_nil_r. split; [done|]. split; [lia|done]. }
      unfold bind at 1. unfold try_except, bind, ws_send_json, sleep, emit,
        ret.
      destruct (ws_send_fault e (trace s)) as [x|]; cbn beta iota zeta.
      { exists Stopped, s, 0%nat. cbn [heartbeats length].
        rewrite app_nil_r. split; [done|]. split; [lia|done]. }
      destruct b; unfold set_connected; cbn beta iota zeta;
        cbn [_running _connected trace];
        match goal with
        | |- context [_ping_loop rest e ?st] =>
            destruct (IH st) as (r & s' & n & Hrun & Hn & Ht & Hr)
        end;
        (exists r, s', (S n); split; [exact Hrun|];
         split; [cbn [length]; lia|]; split; [|exact Hr];
         rewrite Ht; cbn [trace heartbeats]; by rewrite <- !app_assoc). }
  split; [apply Hloop|]. split; [done|]. split; [|split].
  - intros b rest Hc Hsend. cbn [_ping_loop]. unfold bind at 1.
    unfold get at 1. rewrite Hc. cbn [negb].
    unfold bind at 1. unfold try_except, bind, ws_send_json, sleep, emit,
      ret.
    rewrite Hsend. cbn beta iota zeta.
    destruct b; unfold set_connected; cbn beta iota zeta;
      cbn [_running _connected trace];
      match goal with
      | |- context [_ping_loop rest e ?st] =>
          destruct (Hloop rest st) as (r & s' & n & Hrun & _ & Ht & _)
      end;
      (exists r, s', (heartbeats n); split; [exact Hrun|];
       rewrite Ht; cbn [trace]; by rewrite <- !app_assoc).
  - intros Hc. destruct beats; cbn [_ping_loop]; unfold bind, get;
      by rewrite Hc.
  - intros x b rest -> Hc Hsend. cbn [_ping_loop].
    unfold bind, get, try_except, ws_send_json. rewrite Hc. cbn [negb].
    by rewrite Hsend.
Qed.

(** ** Startup *)

Section Startup.
Context `{PyRuntime}.



(** Whatever the three operations of the client are, an exception
    that the operation chosen by a command raises does not leave
    [_execute_ha_command]: the command is answered with the text of the
    exception as its error, in the state the operation left. *)
Theorem operation_exception_becomes_error (self : LocalApiClient)
  (command : dict) x s' e s :
  (command !! "action" = Some (PStr "get_entities") ->
   get_all_entities self e s = (Raise x, s') ->
   _execute_ha_command self (PDict command) e s
   = (Ok (failure (exn_str x)), s'))
  /\ (command !! "action" = Some (PStr "get_state") ->
      get_entity_state self (default PNone (command !! "entity_id")) e s
      = (Raise x, s') ->
      _execute_ha_command self (PDict command) e s
      = (Ok (failure (exn_str x)), s')).
Proof.
  split; intros Hact Hop;
    unfold _execute_ha_command, bind, lift, try_except, ret;
    cbn [py_get]; rewrite Hact;
    cbn -[failure]; by rewrite Hop.
Qed.

End Startup.

